(** * Database inspection scripts: [analyzeDatabase.py] and [checkTables.py]

    Both scripts open the SQLite file [./data/database.db], send a fixed
    sequence of read-only SQL statements through one cursor and print what
    comes back.  The development has three layers:

    - [Sql]: the database file as the scripts see it (a schema catalog of
      tables with declared columns and stored rows) and an interpreter for
      the SQL text the scripts send: a lexer, a parser for the statement
      forms that occur in the two files, and an evaluator;
    - [Py]: the part of Python the scripts use: the cursor, [print],
      subscripting, exceptions that abort the run;
    - the two scripts, transcribed statement by statement. *)

From Stdlib Require Import ZArith List String Ascii Bool Lia DecimalString.
Import ListNotations.

Local Open Scope string_scope.
Local Open Scope list_scope.

(* ================================================================== *)
(** * The SQL side *)
(* ================================================================== *)

Module Sql.

(** ** Stored values

    The storage classes the inspected schema uses: NULL, INTEGER and TEXT.
    (REAL and BLOB cells are not modelled.) *)

Inductive value : Type :=
| VNull
| VInt (z : Z)
| VText (s : string).

Definition row : Type := list value.

Definition value_compare (a b : value) : comparison :=
  match a, b with
  | VNull, VNull => Eq
  | VNull, _ => Lt
  | _, VNull => Gt
  | VInt x, VInt y => Z.compare x y
  | VInt _, VText _ => Lt
  | VText _, VInt _ => Gt
  | VText x, VText y => String.compare x y
  end.

(** Lexicographic order on grouping keys. *)
Fixpoint key_compare (k1 k2 : list value) : comparison :=
  match k1, k2 with
  | [], [] => Eq
  | [], _ :: _ => Lt
  | _ :: _, [] => Gt
  | a :: k1', b :: k2' =>
      match value_compare a b with
      | Eq => key_compare k1' k2'
      | c => c
      end
  end.

(** ** The database file *)

(** The built-in collating sequences a column can be declared with. *)
Inductive collation : Type :=
| Binary     (* the default: text is compared byte for byte *)
| NoCase     (* ASCII letters compare without regard to case *)
| RTrim.     (* trailing spaces are ignored *)

Record column : Type := mk_column {
  col_name : string;
  col_type : string;          (* declared type, as written in CREATE TABLE *)
  col_notnull : Z;
  col_dflt : value;
  col_pk : Z;
  col_collate : collation     (* COLLATE clause of the column definition *)
}.

(** The rows of a table are kept in storage order: ascending rowid, which
    is the order a scan of the table itself yields.  (An engine that answers
    a statement from an index instead may yield another order; the
    statements about order below are for tables without an index.) *)
Record table : Type := mk_table {
  tbl_columns : list column;  (* in schema order *)
  tbl_rows : list row         (* in scan order *)
}.

(** One entry of the schema catalog [sqlite_master]; [obj_data] holds the
    columns and rows a scan of the object yields (for an index or a trigger
    nothing reads it). *)
Record object : Type := mk_object {
  obj_type : string;          (* 'table', 'index', 'view' or 'trigger' *)
  obj_name : string;
  obj_tbl_name : string;
  obj_rootpage : Z;
  obj_sql : value;
  obj_data : table
}.

Inductive db_file : Type :=
| NotADatabase                       (* the file is not an SQLite database *)
| Database (schema : list object)    (* catalog entries in catalog order *)
| Unopenable.                        (* the path cannot be opened at all *)

(** The errors of the driver that are modelled. *)
Inductive sql_error : Type :=
| NotADb
| SyntaxError
| NoSuchTable (name : string)
| NoSuchColumn (name : string)
| CantOpen.                          (* unable to open database file *)

Record result_set : Type := mk_result {
  rs_description : list string;   (* column names of the result *)
  rs_rows : list row
}.

(** ** Characters and names *)

Definition is_digit (c : ascii) : bool :=
  (Ascii.leb "0" c && Ascii.leb c "9")%char.

Definition is_upper (c : ascii) : bool :=
  (Ascii.leb "A" c && Ascii.leb c "Z")%char.

Definition is_lower (c : ascii) : bool :=
  (Ascii.leb "a" c && Ascii.leb c "z")%char.

Definition is_space (c : ascii) : bool :=
  let n := nat_of_ascii c in
  (n =? 32)%nat || (n =? 9)%nat || (n =? 10)%nat || (n =? 12)%nat || (n =? 13)%nat.

(** Characters that continue an identifier or a number: letters, digits,
    underscore, dollar, and every byte above 127. *)
Definition is_word_char (c : ascii) : bool :=
  is_upper c || is_lower c || is_digit c
  || Ascii.eqb c "_" || Ascii.eqb c "$"
  || (128 <=? nat_of_ascii c)%nat.

Definition lower_ascii (c : ascii) : ascii :=
  if is_upper c then ascii_of_nat (nat_of_ascii c + 32) else c.

Fixpoint lower (s : string) : string :=
  match s with
  | EmptyString => EmptyString
  | String c s' => String (lower_ascii c) (lower s')
  end.

(** Names of tables and columns are compared without regard to ASCII case. *)
Definition name_eqb (a b : string) : bool := String.eqb (lower a) (lower b).

(** Keywords the grammar does not accept as a bare (unquoted) name. *)
Definition reserved_words : list string :=
  [ "add"; "all"; "alter"; "and"; "as"; "autoincrement"; "between"; "case";
    "check"; "collate"; "commit"; "constraint"; "create"; "default";
    "deferrable"; "delete"; "distinct"; "drop"; "else"; "escape"; "except";
    "exists"; "foreign"; "from"; "group"; "having"; "in"; "index"; "insert";
    "intersect"; "into"; "is"; "isnull"; "join"; "limit"; "not"; "nothing";
    "notnull"; "null"; "on"; "or"; "order"; "primary"; "references";
    "returning"; "select"; "set"; "table"; "then"; "to"; "transaction";
    "union"; "unique"; "update"; "using"; "values"; "when"; "where" ].

Definition reserved (w : string) : bool :=
  existsb (String.eqb (lower w)) reserved_words.

(** ** Lexer *)

Inductive token : Type :=
| TWord (w : string)      (* identifier or keyword *)
| TNum (n : nat)
| TStr (s : string)       (* 'single quoted' literal *)
| TLParen | TRParen | TStar | TComma | TEq | TSemi
| TBad (s : string).      (* anything the grammar below has no use for *)

Fixpoint nat_of_digits (acc : nat) (s : string) : option nat :=
  match s with
  | EmptyString => Some acc
  | String c s' =>
      if is_digit c
      then nat_of_digits (10 * acc + (nat_of_ascii c - 48)) s'
      else None
  end.

Definition word_token (w : string) : token :=
  match w with
  | EmptyString => TBad w
  | String c _ =>
      if is_digit c then
        match nat_of_digits 0 w with
        | Some n => TNum n
        | None => TBad w
        end
      else if Ascii.eqb c "$" then TBad w
      else TWord w
  end.

Definition punct (c : ascii) : token :=
  if Ascii.eqb c "(" then TLParen
  else if Ascii.eqb c ")" then TRParen
  else if Ascii.eqb c "*" then TStar
  else if Ascii.eqb c "," then TComma
  else if Ascii.eqb c "=" then TEq
  else if Ascii.eqb c ";" then TSemi
  else TBad (String c EmptyString).

Inductive lex_state : Type :=
| LIdle
| LWord (acc : string)        (* inside an identifier or number *)
| LQuote (acc : string)       (* inside a string literal *)
| LQuoteEnd (acc : string).   (* just read a quote inside a literal *)

Definition lex_flush (st : lex_state) : list token :=
  match st with
  | LIdle => []
  | LWord w => [word_token w]
  | LQuote acc => [TBad acc]
  | LQuoteEnd acc => [TStr acc]
  end.

(** One character in the idle state: what is emitted and the next state. *)
Definition idle_step (c : ascii) : list token * lex_state :=
  if is_word_char c then ([], LWord (String c EmptyString))
  else if Ascii.eqb c "'" then ([], LQuote EmptyString)
  else if is_space c then ([], LIdle)
  else ([punct c], LIdle).

Definition lex_step (st : lex_state) (c : ascii) : list token * lex_state :=
  match st with
  | LIdle => idle_step c
  | LWord w =>
      if is_word_char c then ([], LWord (w ++ String c EmptyString))
      else (word_token w :: fst (idle_step c), snd (idle_step c))
  | LQuote acc =>
      if Ascii.eqb c "'" then ([], LQuoteEnd acc)
      else ([], LQuote (acc ++ String c EmptyString))
  | LQuoteEnd acc =>
      (* a doubled quote stands for one quote inside the literal *)
      if Ascii.eqb c "'" then ([], LQuote (acc ++ "'"))
      else (TStr acc :: fst (idle_step c), snd (idle_step c))
  end.

Fixpoint lex (st : lex_state) (s : string) : list token :=
  match s with
  | EmptyString => lex_flush st
  | String c rest => fst (lex_step st c) ++ lex (snd (lex_step st c)) rest
  end.

Definition tokens (sql : string) : list token := lex LIdle sql.

(** ** Statements

    The statement forms the two scripts send:
    [SELECT results FROM name [WHERE cond] [GROUP BY names] [LIMIT n]] and
    [PRAGMA table_info(name)].  Text outside this grammar (delimited
    identifiers, joins, aliases, ...) is reported as a syntax error. *)

Inductive result_col : Type :=
| RStar
| RCountStar
| RCol (c : string).

Inductive atom : Type :=
| ACol (c : string)
| AStr (s : string).

Inductive cond : Type :=
| CEq (a b : atom)
| CIsNull (a : atom)
| COr (p q : cond).

Record select : Type := mk_select {
  sel_results : list result_col;
  sel_from : string;
  sel_where : option cond;
  sel_group : list string;
  sel_limit : option nat
}.

Inductive stmt : Type :=
| SSelect (q : select)
| SPragmaTableInfo (name : string).

(** ** Parser *)

Definition is_kw (k : string) (t : token) : bool :=
  match t with
  | TWord w => String.eqb (lower w) k
  | _ => false
  end.

Definition as_name (t : token) : option string :=
  match t with
  | TWord w => if reserved w then None else Some w
  | _ => None
  end.

Definition as_atom (t : token) : option atom :=
  match t with
  | TStr s => Some (AStr s)
  | _ => option_map ACol (as_name t)
  end.

(** [result {, result}] where a result is [*], [COUNT( * )] or a column. *)
Fixpoint parse_results (ts : list token) : option (list result_col * list token) :=
  let more (r : result_col) (rest : list token) :=
    match rest with
    | TComma :: rest' =>
        match parse_results rest' with
        | Some (rs, k) => Some (r :: rs, k)
        | None => None
        end
    | _ => Some ([r], rest)
    end in
  match ts with
  | TStar :: rest => more RStar rest
  | TWord w :: TLParen :: TStar :: TRParen :: rest =>
      if String.eqb (lower w) "count" then more RCountStar rest else None
  | TWord w :: rest =>
      if reserved w then None else more (RCol w) rest
  | _ => None
  end.

(** [name {, name}] *)
Fixpoint parse_names (ts : list token) : option (list string * list token) :=
  match ts with
  | TWord w :: rest =>
      if reserved w then None
      else match rest with
           | TComma :: rest' =>
               match parse_names rest' with
               | Some (ns, k) => Some (w :: ns, k)
               | None => None
               end
           | _ => Some ([w], rest)
           end
  | _ => None
  end.

(** [test {OR test}] where a test is [atom = atom] or [atom IS NULL]. *)
Fixpoint parse_cond (ts : list token) : option (cond * list token) :=
  let more (c : cond) (rest : list token) :=
    match rest with
    | TWord w :: rest' =>
        if String.eqb (lower w) "or" then
          match parse_cond rest' with
          | Some (c', k) => Some (COr c c', k)
          | None => None
          end
        else Some (c, rest)
    | _ => Some (c, rest)
    end in
  match ts with
  | a :: TEq :: b :: rest =>
      match as_atom a, as_atom b with
      | Some x, Some y => more (CEq x y) rest
      | _, _ => None
      end
  | a :: TWord w1 :: TWord w2 :: rest =>
      if String.eqb (lower w1) "is" && String.eqb (lower w2) "null" then
        match as_atom a with
        | Some x => more (CIsNull x) rest
        | None => None
        end
      else None
  | _ => None
  end.

Definition parse_where (ts : list token) : option (option cond * list token) :=
  match ts with
  | t :: rest =>
      if is_kw "where" t then
        match parse_cond rest with
        | Some (c, k) => Some (Some c, k)
        | None => None
        end
      else Some (None, ts)
  | [] => Some (None, ts)
  end.

Definition parse_group (ts : list token) : option (list string * list token) :=
  match ts with
  | t1 :: t2 :: rest =>
      if is_kw "group" t1 then
        if is_kw "by" t2 then parse_names rest else None
      else Some ([], ts)
  | _ => Some ([], ts)
  end.

Definition parse_limit (ts : list token) : option (option nat * list token) :=
  match ts with
  | t :: rest =>
      if is_kw "limit" t then
        match rest with
        | TNum n :: k => Some (Some n, k)
        | _ => None
        end
      else Some (None, ts)
  | [] => Some (None, ts)
  end.

(** A statement ends at the end of the text or at one trailing semicolon. *)
Definition at_end (ts : list token) : bool :=
  match ts with
  | [] => true
  | [TSemi] => true
  | _ => false
  end.

Definition parse_select (ts : list token) : option select :=
  match parse_results ts with
  | Some (rs, t_from :: t_name :: ts1) =>
      if is_kw "from" t_from then
        match as_name t_name with
        | Some from =>
            match parse_where ts1 with
            | Some (w, ts2) =>
                match parse_group ts2 with
                | Some (g, ts3) =>
                    match parse_limit ts3 with
                    | Some (l, ts4) =>
                        if at_end ts4
                        then Some (mk_select rs from w g l)
                        else None
                    | None => None
                    end
                | None => None
                end
            | None => None
            end
        | None => None
        end
      else None
  | _ => None
  end.

Definition parse_stmt (ts : list token) : option stmt :=
  match ts with
  | t :: rest =>
      if is_kw "select" t then option_map SSelect (parse_select rest)
      else if is_kw "pragma" t then
        match rest with
        | t_fn :: TLParen :: t_arg :: TRParen :: k =>
            if is_kw "table_info" t_fn && at_end k
            then option_map SPragmaTableInfo (as_name t_arg)
            else None
        | _ => None
        end
      else None
  | [] => None
  end.

Definition parse_sql (sql : string) : option stmt := parse_stmt (tokens sql).

(** ** Evaluator *)

Definition is_relation (o : object) : bool :=
  String.eqb (obj_type o) "table" || String.eqb (obj_type o) "view".

Definition plain_column (name type : string) : column :=
  mk_column name type 0 VNull 0 Binary.

(** The schema catalog read as a table. *)
Definition master_table (s : list object) : table :=
  mk_table
    [ plain_column "type" "TEXT"; plain_column "name" "TEXT";
      plain_column "tbl_name" "TEXT"; plain_column "rootpage" "INT";
      plain_column "sql" "TEXT" ]
    (map (fun o => [ VText (obj_type o); VText (obj_name o);
                     VText (obj_tbl_name o); VInt (obj_rootpage o);
                     obj_sql o ]) s).

Definition find_relation (s : list object) (name : string) : option table :=
  if name_eqb name "sqlite_master" || name_eqb name "sqlite_schema"
  then Some (master_table s)
  else option_map obj_data
         (find (fun o => is_relation o && name_eqb (obj_name o) name) s).

Fixpoint column_index (cols : list column) (c : string) : option nat :=
  match cols with
  | [] => None
  | col :: cols' =>
      if name_eqb (col_name col) c then Some 0
      else option_map S (column_index cols' c)
  end.

Definition cell (i : nat) (r : row) : value := nth i r VNull.

(** A result column bound to the table: its reported name and how to
    compute it from the rows of a group. *)
Inductive item : Type :=
| ICount
| ICell (i : nat).

Definition star_items (cols : list column) : list (string * item) :=
  map (fun ic => (col_name (snd ic), ICell (fst ic)))
      (combine (seq 0 (List.length cols)) cols).

Definition bind_result (cols : list column) (r : result_col)
  : sql_error + list (string * item) :=
  match r with
  | RStar => inr (star_items cols)
  | RCountStar => inr [("COUNT(*)", ICount)]
  | RCol c =>
      match column_index cols c with
      | Some i => inr [(col_name (nth i cols (plain_column c "")), ICell i)]
      | None => inl (NoSuchColumn c)
      end
  end.

Fixpoint bind_results (cols : list column) (rs : list result_col)
  : sql_error + list (string * item) :=
  match rs with
  | [] => inr []
  | r :: rs' =>
      match bind_result cols r with
      | inl e => inl e
      | inr its =>
          match bind_results cols rs' with
          | inl e => inl e
          | inr items => inr (its ++ items)
          end
      end
  end.

Fixpoint bind_names (cols : list column) (ns : list string)
  : sql_error + list nat :=
  match ns with
  | [] => inr []
  | n :: ns' =>
      match column_index cols n with
      | None => inl (NoSuchColumn n)
      | Some i =>
          match bind_names cols ns' with
          | inl e => inl e
          | inr ks => inr (i :: ks)
          end
      end
  end.

Definition bind_atom (cols : list column) (a : atom) : sql_error + (row -> value) :=
  match a with
  | AStr s => inr (fun _ => VText s)
  | ACol c =>
      match column_index cols c with
      | Some i => inr (cell i)
      | None => inl (NoSuchColumn c)
      end
  end.

(** The collating sequence of a comparison: that of its left operand when
    it is a column, else that of its right operand when it is a column, else
    the default. *)
Definition atom_collation (cols : list column) (a : atom) : option collation :=
  match a with
  | AStr _ => None
  | ACol c =>
      option_map (fun i => col_collate (nth i cols (plain_column c "")))
                 (column_index cols c)
  end.

Definition comparison_collation (cols : list column) (a b : atom) : collation :=
  match atom_collation cols a, atom_collation cols b with
  | Some k, _ => k
  | None, Some k => k
  | None, None => Binary
  end.

(** [s] without its trailing spaces. *)
Fixpoint rtrim (s : string) : string :=
  match s with
  | EmptyString => EmptyString
  | String c s' =>
      match rtrim s' with
      | EmptyString => if Ascii.eqb c " " then EmptyString else String c EmptyString
      | r => String c r
      end
  end.

(** Equality of two texts under a collating sequence. *)
Definition text_eqb (k : collation) (x y : string) : bool :=
  match k with
  | Binary => String.eqb x y
  | NoCase => String.eqb (lower x) (lower y)
  | RTrim => String.eqb (rtrim x) (rtrim y)
  end.

(** Three-valued logic: [None] is SQL's NULL truth value. *)
Definition sql_eq (k : collation) (a b : value) : option bool :=
  match a, b with
  | VNull, _ | _, VNull => None
  | VInt x, VInt y => Some (Z.eqb x y)
  | VText x, VText y => Some (text_eqb k x y)
  | _, _ => Some false
  end.

Definition sql_is_null (a : value) : option bool :=
  match a with
  | VNull => Some true
  | _ => Some false
  end.

Definition sql_or (p q : option bool) : option bool :=
  match p, q with
  | Some true, _ | _, Some true => Some true
  | Some false, Some false => Some false
  | _, _ => None
  end.

Fixpoint bind_cond (cols : list column) (c : cond)
  : sql_error + (row -> option bool) :=
  match c with
  | CEq a b =>
      match bind_atom cols a, bind_atom cols b with
      | inr f, inr g =>
          inr (fun r => sql_eq (comparison_collation cols a b) (f r) (g r))
      | inl e, _ | _, inl e => inl e
      end
  | CIsNull a =>
      match bind_atom cols a with
      | inr f => inr (fun r => sql_is_null (f r))
      | inl e => inl e
      end
  | COr p q =>
      match bind_cond cols p, bind_cond cols q with
      | inr f, inr g => inr (fun r => sql_or (f r) (g r))
      | inl e, _ | _, inl e => inl e
      end
  end.

Definition bind_where (cols : list column) (w : option cond)
  : sql_error + (row -> bool) :=
  match w with
  | None => inr (fun _ => true)
  | Some c =>
      match bind_cond cols c with
      | inr f => inr (fun r => match f r with Some true => true | _ => false end)
      | inl e => inl e
      end
  end.

(** GROUP BY: groups come out in ascending key order; the rows of a group
    stay in scan order. *)
Fixpoint insert_group (k : list value) (r : row)
  (gs : list (list value * list row)) : list (list value * list row) :=
  match gs with
  | [] => [(k, [r])]
  | (k', rs) :: gs' =>
      match key_compare k k' with
      | Lt => (k, [r]) :: gs
      | Eq => (k', r :: rs) :: gs'
      | Gt => (k', rs) :: insert_group k r gs'
      end
  end.

Definition group_key (keys : list nat) (r : row) : list value :=
  map (fun i => cell i r) keys.

Fixpoint group_rows (keys : list nat) (rows : list row)
  : list (list value * list row) :=
  match rows with
  | [] => []
  | r :: rows' => insert_group (group_key keys r) r (group_rows keys rows')
  end.

Definition is_count (it : string * item) : bool :=
  match snd it with
  | ICount => true
  | ICell _ => false
  end.

(** The row groups a SELECT reports on: the GROUP BY groups; or, for an
    aggregate without GROUP BY, all rows as one group; or each row by
    itself. *)
Definition groups_of (items : list (string * item)) (keys : list nat)
  (rows : list row) : list (list row) :=
  match keys with
  | _ :: _ => map snd (group_rows keys rows)
  | [] => if existsb is_count items then [rows] else map (fun r => [r]) rows
  end.

Definition eval_item (g : list row) (it : string * item) : value :=
  match snd it with
  | ICount => VInt (Z.of_nat (List.length g))
  | ICell i =>
      match g with
      | r :: _ => cell i r
      | [] => VNull
      end
  end.

Definition apply_limit (l : option nat) (rows : list row) : list row :=
  match l with
  | Some n => firstn n rows
  | None => rows
  end.

Definition run_select (s : list object) (q : select) : sql_error + result_set :=
  match find_relation s (sel_from q) with
  | None => inl (NoSuchTable (sel_from q))
  | Some t =>
      let cols := tbl_columns t in
      match bind_results cols (sel_results q) with
      | inl e => inl e
      | inr items =>
          match bind_where cols (sel_where q) with
          | inl e => inl e
          | inr keep =>
              match bind_names cols (sel_group q) with
              | inl e => inl e
              | inr keys =>
                  let gs := groups_of items keys (filter keep (tbl_rows t)) in
                  inr (mk_result (map fst items)
                         (apply_limit (sel_limit q)
                            (map (fun g => map (eval_item g) items) gs)))
              end
          end
      end
  end.

Definition table_info_row (ic : nat * column) : row :=
  [ VInt (Z.of_nat (fst ic)); VText (col_name (snd ic));
    VText (col_type (snd ic)); VInt (col_notnull (snd ic));
    col_dflt (snd ic); VInt (col_pk (snd ic)) ].

Definition table_info_description : list string :=
  [ "cid"; "name"; "type"; "notnull"; "dflt_value"; "pk" ].

(** [PRAGMA table_info(t)]: one row per column; no rows, and no error,
    when there is no such table.  (Hidden and generated columns, which the
    pragma leaves out, are not modelled.) *)
Definition run_table_info (s : list object) (name : string) : result_set :=
  match find_relation s name with
  | None => mk_result table_info_description []
  | Some t =>
      mk_result table_info_description
        (map table_info_row
           (combine (seq 0 (List.length (tbl_columns t))) (tbl_columns t)))
  end.

Definition run_stmt (s : list object) (st : stmt) : sql_error + result_set :=
  match st with
  | SSelect q => run_select s q
  | SPragmaTableInfo name => inr (run_table_info s name)
  end.

Definition execute (db : db_file) (sql : string) : sql_error + result_set :=
  match db with
  | NotADatabase => inl NotADb
  | Database s =>
      match parse_sql sql with
      | None => inl SyntaxError
      | Some st => run_stmt s st
      end
  | Unopenable => inl CantOpen
  end.

End Sql.

(* ================================================================== *)
(** * The Python side *)
(* ================================================================== *)

Module Py.
Import Sql.

(** Exceptions the scripts can meet.  Neither script has a [try]: a raised
    exception ends the run. *)
Inductive exn : Type :=
| DatabaseError (e : sql_error)   (* sqlite3.DatabaseError and subclasses *)
| TypeError
| IndexError.

(** What a run does that can be seen from outside, in order. *)
Inductive event : Type :=
| EvConnect                             (* sqlite3.connect(...) returned *)
| EvExecute (sql : string) (ok : bool)  (* cursor.execute(sql); ok = it returned *)
| EvPrint (text : string)               (* print(text) *)
| EvClose.                              (* conn.close() *)

(** The cursor: the rows of the last statement not yet fetched, and the
    description of its columns ([None] before the first statement). *)
Record cursor : Type := mk_cursor {
  cur_description : option (list string);
  cur_pending : list row
}.

Definition fresh_cursor : cursor := mk_cursor None [].

Record outcome (A : Type) : Type := mk_outcome {
  out_events : list event;
  out_cursor : cursor;
  out_result : exn + A
}.
Arguments mk_outcome {A} _ _ _.
Arguments out_events {A} _.
Arguments out_cursor {A} _.
Arguments out_result {A} _.

(** A piece of script: from the cursor's state to what happened. *)
Definition M (A : Type) : Type := cursor -> outcome A.

Definition ret {A : Type} (a : A) : M A :=
  fun c => mk_outcome [] c (inr a).

Definition raise {A : Type} (e : exn) : M A :=
  fun c => mk_outcome [] c (inl e).

Definition bind {A B : Type} (m : M A) (f : A -> M B) : M B :=
  fun c =>
    match m c with
    | mk_outcome ev c' (inl e) => mk_outcome ev c' (inl e)
    | mk_outcome ev c' (inr a) =>
        match f a c' with
        | mk_outcome ev' c'' r => mk_outcome (ev ++ ev') c'' r
        end
    end.

Declare Scope py_scope.
Delimit Scope py_scope with py.
Notation "x <- c1 ;; c2" := (bind c1 (fun x => c2))
  (at level 61, c1 at next level, right associativity) : py_scope.
Notation "c1 ;; c2" := (bind c1 (fun _ => c2))
  (at level 61, right associativity) : py_scope.
Local Open Scope py_scope.

Definition emit (e : event) : M unit :=
  fun c => mk_outcome [e] c (inr tt).

(** [print(text)].  Standard output is taken to accept every text: an
    encoding error of the output stream is not modelled. *)
Definition print (text : string) : M unit := emit (EvPrint text).

(** [sqlite3.connect(path)] followed by [conn.cursor()]: the connection
    stands for the file's content.  SQLite opens the file lazily: a file
    that is not a database is noticed by the first statement, not here.  A
    path that cannot be opened at all makes [connect] itself raise, before
    there is a connection. *)
Definition connect (db : db_file) : M db_file :=
  fun _ =>
    match db with
    | Unopenable => mk_outcome [] fresh_cursor (inl (DatabaseError CantOpen))
    | _ => mk_outcome [EvConnect] fresh_cursor (inr db)
    end.

Definition close : M unit := emit EvClose.

Definition cursor_execute (conn : db_file) (sql : string) : M unit :=
  fun c =>
    match Sql.execute conn sql with
    | inl e => mk_outcome [EvExecute sql false] c (inl (DatabaseError e))
    | inr rs =>
        mk_outcome [EvExecute sql true]
                   (mk_cursor (Some (rs_description rs)) (rs_rows rs))
                   (inr tt)
    end.

(** [cursor.fetchone()]: the next row, or [None].  Stored text is taken to
    be valid UTF-8: the driver's error on text it cannot decode is not
    modelled, here and in [fetchall]. *)
Definition fetchone : M (option row) :=
  fun c =>
    match cur_pending c with
    | [] => mk_outcome [] c (inr None)
    | r :: rest => mk_outcome [] (mk_cursor (cur_description c) rest) (inr (Some r))
    end.

(** [cursor.fetchall()]: all remaining rows. *)
Definition fetchall : M (list row) :=
  fun c => mk_outcome [] (mk_cursor (cur_description c) []) (inr (cur_pending c)).

(** [cursor.description], read as the list of column names. *)
Definition description_names : M (list string) :=
  fun c =>
    match cur_description c with
    | Some d => mk_outcome [] c (inr d)
    | None => mk_outcome [] c (inl TypeError)
    end.

(** [row[i]] on a tuple. *)
Definition getitem (r : row) (i : nat) : M value :=
  match nth_error r i with
  | Some v => ret v
  | None => raise IndexError
  end.

(** [x[i]] where [x] is a tuple or [None]. *)
Definition getitem_opt (x : option row) (i : nat) : M value :=
  match x with
  | Some r => getitem r i
  | None => raise TypeError
  end.

(** [v > 0]: defined on integers only. *)
Definition gt0 (v : value) : M bool :=
  match v with
  | VInt z => ret (0 <? z)%Z
  | _ => raise TypeError
  end.

(** Truth value of a fetched row: [None] and the empty tuple are false. *)
Definition truthy (x : option row) : bool :=
  match x with
  | Some (_ :: _) => true
  | _ => false
  end.

Fixpoint for_each {A : Type} (xs : list A) (body : A -> M unit) : M unit :=
  match xs with
  | [] => ret tt
  | x :: xs' => body x ;; for_each xs' body
  end.

Definition enumerate {A : Type} (xs : list A) : list (nat * A) :=
  combine (seq 0 (List.length xs)) xs.

(** [str(v)], which is also how an f-string renders [v]. *)
Definition py_str (v : value) : string :=
  match v with
  | VNull => "None"
  | VInt z => NilZero.string_of_int (Z.to_int z)
  | VText s => s
  end.

Definition nl : string := String (ascii_of_nat 10) EmptyString.

(** [s * n] on strings. *)
Fixpoint str_mul (s : string) (n : nat) : string :=
  match n with
  | O => EmptyString
  | S n' => s ++ str_mul s n'
  end.

(** A run starts with no cursor state; the process exit status is 1 when an
    exception reaches the top level and 0 otherwise. *)
Definition run {A : Type} (m : M A) : outcome A := m fresh_cursor.

Definition exit_status {A : Type} (o : outcome A) : Z :=
  match out_result o with
  | inl _ => 1
  | inr _ => 0
  end.

Definition stdout {A : Type} (o : outcome A) : list string :=
  flat_map (fun e => match e with EvPrint t => [t] | _ => [] end) (out_events o).

End Py.

(* ================================================================== *)
(** * analyzeDatabase.py *)
(* ================================================================== *)

Module AnalyzeDatabase.
Import Sql Py.
Local Open Scope py_scope.

Definition separator : string := nl ++ str_mul "=" 50 ++ nl.

Definition analyze_database (db : db_file) : M unit :=
  conn <- connect db ;;
  print ("=== DATABASE ANALYSIS ===" ++ nl) ;;
  (* Check files table *)
  cursor_execute conn "SELECT COUNT(*) FROM files" ;;
  r <- fetchone ;;
  file_count <- getitem_opt r 0 ;;
  print ("Files processed: " ++ py_str file_count) ;;
  some_files <- gt0 file_count ;;
  (if some_files then
     cursor_execute conn "SELECT file_path, status FROM files LIMIT 5" ;;
     print "Sample files:" ;;
     rows <- fetchall ;;
     for_each rows (fun row =>
       x0 <- getitem row 0 ;;
       x1 <- getitem row 1 ;;
       print ("  - " ++ py_str x0 ++ " [" ++ py_str x1 ++ "]"))
   else ret tt) ;;
  print separator ;;
  (* Check POIs table *)
  cursor_execute conn "SELECT COUNT(*) FROM pois" ;;
  r <- fetchone ;;
  poi_count <- getitem_opt r 0 ;;
  print ("POIs extracted: " ++ py_str poi_count) ;;
  some_pois <- gt0 poi_count ;;
  (if some_pois then
     cursor_execute conn "SELECT type, COUNT(*) FROM pois GROUP BY type" ;;
     print "POI types:" ;;
     rows <- fetchall ;;
     for_each rows (fun row =>
       x0 <- getitem row 0 ;;
       x1 <- getitem row 1 ;;
       print ("  - " ++ py_str x0 ++ ": " ++ py_str x1)) ;;
     (* Sample POIs *)
     cursor_execute conn
       "SELECT file_path, name, type, start_line, end_line FROM pois LIMIT 5" ;;
     print (nl ++ "Sample POIs:") ;;
     rows <- fetchall ;;
     for_each rows (fun row =>
       x0 <- getitem row 0 ;;
       x1 <- getitem row 1 ;;
       x2 <- getitem row 2 ;;
       x3 <- getitem row 3 ;;
       x4 <- getitem row 4 ;;
       print ("  - " ++ py_str x0 ++ " | " ++ py_str x1 ++ " (" ++ py_str x2
              ++ ") | Lines " ++ py_str x3 ++ "-" ++ py_str x4))
   else ret tt) ;;
  print separator ;;
  (* Check relationships table *)
  cursor_execute conn "SELECT COUNT(*) FROM relationships" ;;
  r <- fetchone ;;
  rel_count <- getitem_opt r 0 ;;
  print ("Relationships discovered: " ++ py_str rel_count) ;;
  some_rels <- gt0 rel_count ;;
  (if some_rels then
     cursor_execute conn "SELECT type, COUNT(*) FROM relationships GROUP BY type" ;;
     print "Relationship types:" ;;
     rows <- fetchall ;;
     for_each rows (fun row =>
       x0 <- getitem row 0 ;;
       x1 <- getitem row 1 ;;
       print ("  - " ++ py_str x0 ++ ": " ++ py_str x1)) ;;
     cursor_execute conn "SELECT status, COUNT(*) FROM relationships GROUP BY status" ;;
     print (nl ++ "Relationship statuses:") ;;
     rows <- fetchall ;;
     for_each rows (fun row =>
       x0 <- getitem row 0 ;;
       x1 <- getitem row 1 ;;
       print ("  - " ++ py_str x0 ++ ": " ++ py_str x1)) ;;
     (* Check validated relationships *)
     cursor_execute conn
       "SELECT COUNT(*) FROM relationships WHERE status = 'validated'" ;;
     r <- fetchone ;;
     validated_count <- getitem_opt r 0 ;;
     print (nl ++ "Validated relationships: " ++ py_str validated_count)
   else ret tt) ;;
  print separator ;;
  (* Check relationship_evidence table *)
  cursor_execute conn "SELECT COUNT(*) FROM relationship_evidence" ;;
  r <- fetchone ;;
  evidence_count <- getitem_opt r 0 ;;
  print ("Relationship evidence entries: " ++ py_str evidence_count) ;;
  (* Check transactional_outbox *)
  cursor_execute conn "SELECT COUNT(*) FROM transactional_outbox" ;;
  r <- fetchone ;;
  outbox_count <- getitem_opt r 0 ;;
  print ("Transactional outbox entries: " ++ py_str outbox_count) ;;
  some_outbox <- gt0 outbox_count ;;
  (if some_outbox then
     cursor_execute conn
       "SELECT event_type, processed, COUNT(*) FROM transactional_outbox GROUP BY event_type, processed" ;;
     print "Outbox status:" ;;
     rows <- fetchall ;;
     for_each rows (fun row =>
       x0 <- getitem row 0 ;;
       x1 <- getitem row 1 ;;
       x2 <- getitem row 2 ;;
       print ("  - " ++ py_str x0 ++ " [processed=" ++ py_str x1 ++ "]: "
              ++ py_str x2))
   else ret tt) ;;
  print separator ;;
  (* Check if POIs have proper data *)
  some_pois <- gt0 poi_count ;;
  (if some_pois then
     cursor_execute conn "SELECT COUNT(*) FROM pois WHERE name IS NULL OR name = ''" ;;
     r <- fetchone ;;
     empty_names <- getitem_opt r 0 ;;
     cursor_execute conn "SELECT COUNT(*) FROM pois WHERE type IS NULL OR type = ''" ;;
     r <- fetchone ;;
     empty_types <- getitem_opt r 0 ;;
     print ("POIs with empty names: " ++ py_str empty_names) ;;
     print ("POIs with empty types: " ++ py_str empty_types) ;;
     (* Check a sample POI's data *)
     cursor_execute conn "SELECT * FROM pois LIMIT 1" ;;
     row <- fetchone ;;
     (if truthy row then
        print (nl ++ "Sample POI full data:") ;;
        columns <- description_names ;;
        for_each (enumerate columns) (fun ic =>
          x <- getitem_opt row (fst ic) ;;
          print ("  " ++ snd ic ++ ": " ++ py_str x))
      else ret tt)
   else ret tt) ;;
  close.

End AnalyzeDatabase.

(* ================================================================== *)
(** * checkTables.py *)
(* ================================================================== *)

Module CheckTables.
Import Sql Py.
Local Open Scope py_scope.

(** The module body of [checkTables.py]. *)
Definition check_tables (db : db_file) : M unit :=
  conn <- connect db ;;
  (* Get all tables *)
  cursor_execute conn "SELECT name FROM sqlite_master WHERE type='table';" ;;
  tables <- fetchall ;;
  print "Tables in database:" ;;
  for_each tables (fun table =>
    x0 <- getitem table 0 ;;
    print ("  - " ++ py_str x0)) ;;
  (* For each table, show its structure *)
  for_each tables (fun table =>
    table_name <- getitem table 0 ;;
    print (nl ++ py_str table_name ++ " structure:") ;;
    cursor_execute conn ("PRAGMA table_info(" ++ py_str table_name ++ ")") ;;
    columns <- fetchall ;;
    for_each columns (fun col =>
      x1 <- getitem col 1 ;;
      x2 <- getitem col 2 ;;
      print ("  - " ++ py_str x1 ++ " " ++ py_str x2)) ;;
    (* Count rows *)
    cursor_execute conn ("SELECT COUNT(*) FROM " ++ py_str table_name) ;;
    r <- fetchone ;;
    count <- getitem_opt r 0 ;;
    print ("  Row count: " ++ py_str count)) ;;
  close.

End CheckTables.

(* ================================================================== *)
(** * Closed forms used in the proofs

    What the statements of the two scripts evaluate to, written directly
    over the catalog; the lemmas below relate them to [Sql.execute]. *)
(* ================================================================== *)

Module Closed.
Import Sql Py.
Local Open Scope py_scope.

Definition with_table (s : list object) (name : string)
  (k : table -> sql_error + result_set) : sql_error + result_set :=
  match find_relation s name with
  | None => inl (NoSuchTable name)
  | Some t => k t
  end.

Definition with_column (t : table) (c : string)
  (k : nat -> sql_error + result_set) : sql_error + result_set :=
  match column_index (tbl_columns t) c with
  | None => inl (NoSuchColumn c)
  | Some i => k i
  end.

Definition with_columns (t : table) (cs : list string)
  (k : list nat -> sql_error + result_set) : sql_error + result_set :=
  match bind_names (tbl_columns t) cs with
  | inl e => inl e
  | inr ks => k ks
  end.

Definition count_result (n : nat) : result_set :=
  mk_result ["COUNT(*)"] [[VInt (Z.of_nat n)]].

Definition column_label (t : table) (c : string) (i : nat) : string :=
  col_name (nth i (tbl_columns t) (plain_column c "")).

Fixpoint column_labels (t : table) (cs : list string) (ks : list nat) : list string :=
  match cs, ks with
  | c :: cs', i :: ks' => column_label t c i :: column_labels t cs' ks'
  | _, _ => []
  end.

Definition cell_items (t : table) (cs : list string) (ks : list nat)
  : list (string * item) :=
  combine (column_labels t cs ks) (map ICell ks).

(** A WHERE test keeps a row when it is true, not when it is false or NULL. *)
Definition holds (p : option bool) : bool :=
  match p with
  | Some true => true
  | _ => false
  end.

(** The value a bare column takes in a group: that of the group's first row. *)
Definition group_cell (i : nat) (g : list row) : value :=
  match g with
  | r :: _ => cell i r
  | [] => VNull
  end.

Definition count_of (s : list object) (name : string) : sql_error + result_set :=
  with_table s name (fun t => inr (count_result (List.length (tbl_rows t)))).

Definition grouped (s : list object) (name : string) (cs : list string)
  : sql_error + result_set :=
  with_table s name (fun t => with_columns t cs (fun ks =>
    inr (mk_result (column_labels t cs ks ++ ["COUNT(*)"])
           (map (fun g => map (fun i => group_cell i g) ks
                          ++ [VInt (Z.of_nat (List.length g))])
                (map snd (group_rows ks (tbl_rows t))))))).

(** The collating sequence of the column found for [c] at position [i]. *)
Definition column_collation (t : table) (c : string) (i : nat) : collation :=
  col_collate (nth i (tbl_columns t) (plain_column c "")).

Definition count_where (s : list object) (name c : string)
  (p : collation -> value -> option bool) : sql_error + result_set :=
  with_table s name (fun t => with_column t c (fun i =>
    inr (count_result (List.length
           (filter (fun r => holds (p (column_collation t c i) (cell i r)))
                   (tbl_rows t)))))).

(** [x IS NULL OR x = ''] as the evaluator computes it on a column with
    collating sequence [k]. *)
Definition null_or_empty (k : collation) (v : value) : option bool :=
  sql_or (sql_is_null v) (sql_eq k v (VText "")).

(** The lexer run over a prefix of the text: tokens out, state reached. *)
Fixpoint lex_run (st : lex_state) (s : string) : list token * lex_state :=
  match s with
  | EmptyString => ([], st)
  | String c rest =>
      (fst (lex_step st c) ++ fst (lex_run (snd (lex_step st c)) rest),
       snd (lex_run (snd (lex_step st c)) rest))
  end.

(** What a closing parenthesis at the end of the text yields in each state. *)
Definition close_paren (st : lex_state) : list token :=
  match st with
  | LIdle => [TRParen]
  | LWord w => [word_token w; TRParen]
  | LQuote acc => [TBad (acc ++ ")")]
  | LQuoteEnd acc => [TStr acc; TRParen]
  end.

(** [evs] happened, then [o]. *)
Definition push {A : Type} (evs : list event) (o : outcome A) : outcome A :=
  mk_outcome (evs ++ out_events o) (out_cursor o) (out_result o).

(** The body of the second loop of [checkTables.py]. *)
Definition inspect (conn : db_file) (table : row) : M unit :=
  table_name <- getitem table 0 ;;
  print (nl ++ py_str table_name ++ " structure:") ;;
  cursor_execute conn ("PRAGMA table_info(" ++ py_str table_name ++ ")") ;;
  columns <- fetchall ;;
  for_each columns (fun col =>
    x1 <- getitem col 1 ;;
    x2 <- getitem col 2 ;;
    print ("  - " ++ py_str x1 ++ " " ++ py_str x2)) ;;
  cursor_execute conn ("SELECT COUNT(*) FROM " ++ py_str table_name) ;;
  r <- fetchone ;;
  count <- getitem_opt r 0 ;;
  print ("  Row count: " ++ py_str count).

Definition master_query : string :=
  "SELECT name FROM sqlite_master WHERE type='table';".

Definition pragma_query (name : string) : string :=
  "PRAGMA table_info(" ++ name ++ ")".

Definition count_query (name : string) : string :=
  "SELECT COUNT(*) FROM " ++ name.

(** The names the catalog query returns: the entries of type 'table'. *)
Definition table_names (s : list object) : list string :=
  map obj_name (filter (fun o => String.eqb (obj_type o) "table") s).

Definition column_line (ic : nat * column) : string :=
  "  - " ++ col_name (snd ic) ++ " " ++ col_type (snd ic).

Definition info_columns (s : list object) (w : string) : list (nat * column) :=
  match find_relation s w with
  | None => []
  | Some t => combine (seq 0 (List.length (tbl_columns t))) (tbl_columns t)
  end.

(** What one pass of the loop body does, by the results of its two
    statements. *)
Inductive inspected (s : list object) (name : string) (c : cursor)
  : outcome unit -> Prop :=
| inspected_pragma_fails e :
    execute (Database s) (pragma_query name) = inl e ->
    inspected s name c
      (mk_outcome [EvPrint (nl ++ name ++ " structure:");
                   EvExecute (pragma_query name) false]
                  c (inl (DatabaseError e)))
| inspected_count_fails w e :
    execute (Database s) (pragma_query name) = inr (run_table_info s w) ->
    execute (Database s) (count_query name) = inl e ->
    inspected s name c
      (mk_outcome (EvPrint (nl ++ name ++ " structure:")
                   :: EvExecute (pragma_query name) true
                   :: map (fun ic => EvPrint (column_line ic)) (info_columns s w)
                   ++ [EvExecute (count_query name) false])
                  (mk_cursor (Some table_info_description) [])
                  (inl (DatabaseError e)))
| inspected_ok w t :
    execute (Database s) (pragma_query name) = inr (run_table_info s w) ->
    find_relation s w = Some t ->
    execute (Database s) (count_query name)
      = inr (count_result (List.length (tbl_rows t))) ->
    inspected s name c
      (mk_outcome (EvPrint (nl ++ name ++ " structure:")
                   :: EvExecute (pragma_query name) true
                   :: map (fun ic => EvPrint (column_line ic)) (info_columns s w)
                   ++ [EvExecute (count_query name) true;
                       EvPrint ("  Row count: "
                                ++ py_str (VInt (Z.of_nat (List.length (tbl_rows t)))))])
                  (mk_cursor (Some ["COUNT(*)"]) [])
                  (inr tt)).

End Closed.

(* ================================================================== *)
(** * The texts of the report, by name *)
(* ================================================================== *)

Module Text.

Definition q_count_files : string := "SELECT COUNT(*) FROM files".
Definition q_sample_files : string := "SELECT file_path, status FROM files LIMIT 5".
Definition q_count_pois : string := "SELECT COUNT(*) FROM pois".
Definition q_pois_by_type : string := "SELECT type, COUNT(*) FROM pois GROUP BY type".
Definition q_sample_pois : string :=
  "SELECT file_path, name, type, start_line, end_line FROM pois LIMIT 5".
Definition q_count_rels : string := "SELECT COUNT(*) FROM relationships".
Definition q_rels_by_type : string :=
  "SELECT type, COUNT(*) FROM relationships GROUP BY type".
Definition q_rels_by_status : string :=
  "SELECT status, COUNT(*) FROM relationships GROUP BY status".
Definition q_validated : string :=
  "SELECT COUNT(*) FROM relationships WHERE status = 'validated'".
Definition q_count_evidence : string := "SELECT COUNT(*) FROM relationship_evidence".
Definition q_count_outbox : string := "SELECT COUNT(*) FROM transactional_outbox".
Definition q_outbox_groups : string :=
  "SELECT event_type, processed, COUNT(*) FROM transactional_outbox GROUP BY event_type, processed".
Definition q_empty_names : string :=
  "SELECT COUNT(*) FROM pois WHERE name IS NULL OR name = ''".
Definition q_empty_types : string :=
  "SELECT COUNT(*) FROM pois WHERE type IS NULL OR type = ''".
Definition q_first_poi : string := "SELECT * FROM pois LIMIT 1".

Definition l_banner : string := "=== DATABASE ANALYSIS ===".
Definition l_files : string := "Files processed: ".
Definition l_sample_files : string := "Sample files:".
Definition l_pois : string := "POIs extracted: ".
Definition l_poi_types : string := "POI types:".
Definition l_sample_pois : string := "Sample POIs:".
Definition l_lines : string := ") | Lines ".
Definition l_rels : string := "Relationships discovered: ".
Definition l_rel_types : string := "Relationship types:".
Definition l_rel_statuses : string := "Relationship statuses:".
Definition l_validated : string := "Validated relationships: ".
Definition l_evidence : string := "Relationship evidence entries: ".
Definition l_outbox : string := "Transactional outbox entries: ".
Definition l_outbox_status : string := "Outbox status:".
Definition l_processed : string := " [processed=".
Definition l_empty_names : string := "POIs with empty names: ".
Definition l_empty_types : string := "POIs with empty types: ".
Definition l_full_data : string := "Sample POI full data:".

End Text.

(* ================================================================== *)
(** * Reading a run's events *)
(* ================================================================== *)

Module Trace.
Import Sql Py.

(** Events that neither fail nor open or close the connection. *)
Definition is_plain (e : event) : bool :=
  match e with
  | EvPrint _ | EvExecute _ true => true
  | _ => false
  end.

(** How the events after [EvConnect] end: [Some true] when they are plain
    and then one [EvClose]; [Some false] when they are plain and then one
    failed statement; [None] otherwise. *)
Fixpoint tail_shape (evs : list event) : option bool :=
  match evs with
  | [] => None
  | EvClose :: rest => match rest with [] => Some true | _ => None end
  | EvExecute _ false :: rest => match rest with [] => Some false | _ => None end
  | EvPrint _ :: rest => tail_shape rest
  | EvExecute _ true :: rest => tail_shape rest
  | EvConnect :: _ => None
  end.

(** A run of either script: connect, plain events, and then either the
    close and a normal return, or a failed statement and its exception. *)
Definition script_ok (o : outcome unit) : Prop :=
  exists rest, out_events o = EvConnect :: rest /\
    match tail_shape rest with
    | Some true => out_result o = inr tt
    | Some false => exists e, out_result o = inl (DatabaseError e)
    | None => False
    end.

Definition log_entry (e : event) : list (string * bool) :=
  match e with
  | EvExecute q ok => [(q, ok)]
  | _ => []
  end.

(** The statements of a run, in order, with whether each returned. *)
Definition query_log (evs : list event) : list (string * bool) :=
  flat_map log_entry evs.

Definition logged (q : string) (ok : bool) (l : list (string * bool)) : bool :=
  existsb (fun p => String.eqb (fst p) q && Bool.eqb (snd p) ok) l.

Definition attempted (q : string) (l : list (string * bool)) : bool :=
  existsb (fun p => String.eqb (fst p) q) l.

Definition print_entry (e : event) : list string :=
  match e with
  | EvPrint t => [t]
  | _ => []
  end.

(** [evs] contains the events [seg post] as one stretch, for some [post]. *)
Definition occurs (seg : list event -> list event) (evs : list event) : Prop :=
  exists pre post, evs = pre ++ seg post.

(** Some statement of the run raised. *)
Definition failed_query (evs : list event) : Prop :=
  exists sql, In (EvExecute sql false) evs.

End Trace.

(* ================================================================== *)
(** * The vocabulary of the specification *)
(* ================================================================== *)

Module Spec.
Import Sql Py Closed Text Trace AnalyzeDatabase CheckTables.

(** ** Failure and the connection (both scripts) *)

(** A failed statement is the last thing a run does, and the run then
    ends with the driver's exception and a non-zero exit status.  The exit
    status is 0 exactly when the script runs to its end, and then no
    statement has failed.  (The converse is not claimed: a call that is not
    a statement can raise as well.) *)
Definition aborts_on_failure (o : outcome unit) : Prop :=
  (forall pre sql post,
      out_events o = pre ++ EvExecute sql false :: post -> post = [])
  /\ (failed_query (out_events o) ->
      (exists e, out_result o = inl (DatabaseError e)) /\ exit_status o <> 0%Z)
  /\ (exit_status o = 0%Z <-> out_result o = inr tt)
  /\ (out_result o = inr tt -> ~ failed_query (out_events o)).

(** The connection is opened before anything else and once.  When it is
    closed, it was opened first, it is closed once and as the last thing,
    and no statement has failed.  After a failed statement, on an open
    connection, it is never closed.  The script returns exactly when it has
    closed the connection. *)
Definition connection_discipline (o : outcome unit) : Prop :=
  (forall pre post,
      out_events o = pre ++ EvConnect :: post -> pre = [] /\ ~ In EvConnect post)
  /\ (In EvClose (out_events o) ->
      exists body, out_events o = EvConnect :: body ++ [EvClose]
                   /\ ~ In EvClose body
                   /\ ~ failed_query (out_events o))
  /\ (failed_query (out_events o) ->
      In EvConnect (out_events o) /\ ~ In EvClose (out_events o))
  /\ (out_result o = inr tt <-> In EvClose (out_events o)).

(** What the loop of the table lister leaves behind over the names
    [names]: only statements built from those names, and either plain
    events and a normal return, or plain events, one failed statement and
    its exception. *)
Definition partial_ok (names : list string) (o : outcome unit) : Prop :=
  (forall q ok, In (EvExecute q ok) (out_events o) ->
     exists name, In name names /\ (q = pragma_query name \/ q = count_query name))
  /\ match out_result o with
     | inr _ => forallb is_plain (out_events o) = true
     | inl x =>
         exists e pre q, x = DatabaseError e
                         /\ out_events o = pre ++ [EvExecute q false]
                         /\ forallb is_plain pre = true
     end.

(** ** The five tables of the report *)

Record table_report : Type := mk_table_report {
  tr_table : string;
  tr_count_query : string;            (* its COUNT statement *)
  tr_label : string;                  (* the label its total is printed under *)
  tr_details : list string;           (* its detail and group-by statements *)
  tr_detail_prefixes : list string    (* how its detail lines start *)
}.

Definition files_report : table_report :=
  mk_table_report "files" q_count_files "Files processed: "
    [q_sample_files] ["Sample files:"].

Definition pois_report : table_report :=
  mk_table_report "pois" q_count_pois "POIs extracted: "
    [q_pois_by_type; q_sample_pois; q_empty_names; q_empty_types; q_first_poi]
    ["POI types:"; (nl ++ "Sample POIs:")%string; "POIs with empty names: ";
     "POIs with empty types: "; (nl ++ "Sample POI full data:")%string].

Definition relationships_report : table_report :=
  mk_table_report "relationships" q_count_rels "Relationships discovered: "
    [q_rels_by_type; q_rels_by_status; q_validated]
    ["Relationship types:"; (nl ++ "Relationship statuses:")%string;
     (nl ++ "Validated relationships: ")%string].

Definition evidence_report : table_report :=
  mk_table_report "relationship_evidence" q_count_evidence
    "Relationship evidence entries: " [] [].

Definition outbox_report : table_report :=
  mk_table_report "transactional_outbox" q_count_outbox
    "Transactional outbox entries: " [q_outbox_groups] ["Outbox status:"].

Definition report_tables : list table_report :=
  [files_report; pois_report; relationships_report; evidence_report; outbox_report].



(** ** The empty database *)

Definition report_table_names : list string :=
  ["files"; "pois"; "relationships"; "relationship_evidence"; "transactional_outbox"].

Definition all_tables_empty (s : list object) : Prop :=
  forall name, In name report_table_names ->
    exists t, find_relation s name = Some t /\ tbl_rows t = [].

(** Everything the report does on a database whose five tables are empty. *)
Definition empty_report : list event :=
  [ EvConnect;
    EvPrint ("=== DATABASE ANALYSIS ===" ++ nl);
    EvExecute q_count_files true;
    EvPrint "Files processed: 0";
    EvPrint separator;
    EvExecute q_count_pois true;
    EvPrint "POIs extracted: 0";
    EvPrint separator;
    EvExecute q_count_rels true;
    EvPrint "Relationships discovered: 0";
    EvPrint separator;
    EvExecute q_count_evidence true;
    EvPrint "Relationship evidence entries: 0";
    EvExecute q_count_outbox true;
    EvPrint "Transactional outbox entries: 0";
    EvPrint separator;
    EvClose ].

(** ** Sample listings *)





(** ** Data quality *)

(** The spec's words for a missing name or type: NULL or the empty string. *)
Definition empty_or_null (v : value) : bool :=
  match v with
  | VNull => true
  | VText EmptyString => true
  | _ => false
  end.

Definition count_rows (p : row -> bool) (rows : list row) : Z :=
  Z.of_nat (List.length (filter p rows)).

Definition quality_lines (t : table) (i_name i_type : nat) (post : list event)
  : list event :=
  EvExecute q_empty_names true
  :: EvExecute q_empty_types true
  :: EvPrint ("POIs with empty names: "
              ++ py_str (VInt (count_rows (fun r => empty_or_null (cell i_name r))
                                          (tbl_rows t))))
  :: EvPrint ("POIs with empty types: "
              ++ py_str (VInt (count_rows (fun r => empty_or_null (cell i_type r))
                                          (tbl_rows t))))
  :: post.

(** ** Grouped breakdowns *)











(** ** The table lister *)

Definition known_type (ty : string) : bool :=
  existsb (String.eqb ty) ["table"; "index"; "view"; "trigger"].

Definition rows_fit (t : table) : bool :=
  forallb (fun r => Nat.eqb (List.length r) (List.length (tbl_columns t)))
          (tbl_rows t).

Fixpoint distinct (l : list string) : bool :=
  match l with
  | [] => true
  | x :: l' => negb (existsb (String.eqb x) l') && distinct l'
  end.

Definition valid_table (t : table) : bool :=
  negb (Nat.eqb (List.length (tbl_columns t)) 0)
  && distinct (map (fun c => lower (col_name c)) (tbl_columns t))
  && rows_fit t.

(** A well-formed database content: known object types, names that differ
    by more than case, every row as wide as its table. *)
Definition valid_schema (s : list object) : bool :=
  forallb (fun o => known_type (obj_type o) && valid_table (obj_data o)) s
  && distinct (map (fun o => lower (obj_name o)) s).

(** A plain SQL identifier: a letter or underscore, then letters, digits and
    underscores. *)
Definition plain_identifier (name : string) : bool :=
  match name with
  | EmptyString => false
  | String c rest =>
      (is_upper c || is_lower c || Ascii.eqb c "_")
      && forallb (fun d => is_upper d || is_lower d || is_digit d || Ascii.eqb d "_")
                 (list_ascii_of_string rest)
  end.

Definition catalog_tables (db : db_file) : list string :=
  match db with
  | NotADatabase => []
  | Database s => table_names s
  | Unopenable => []
  end.

(** The SQL texts the lister sends: the catalog query, and the two texts
    built from a catalog name by pasting it in as it is. *)
Definition lister_query (db : db_file) (sql : string) : Prop :=
  sql = master_query
  \/ exists name, In name (catalog_tables db)
                  /\ (sql = ("PRAGMA table_info(" ++ name ++ ")")%string
                      \/ sql = ("SELECT COUNT(*) FROM " ++ name)%string).

(** The events of the lister for one catalog table: the heading, the
    PRAGMA, one line per declared column in schema order, the COUNT
    statement and the number of stored rows. *)
Definition table_block (name : string) (t : table) : list event :=
  EvPrint (nl ++ name ++ " structure:")
  :: EvExecute (pragma_query name) true
  :: map (fun c => EvPrint ("  - " ++ col_name c ++ " " ++ col_type c)) (tbl_columns t)
  ++ [ EvExecute (count_query name) true;
       EvPrint ("  Row count: " ++ py_str (VInt (Z.of_nat (List.length (tbl_rows t))))) ].

Definition catalog_table (o : object) : bool := String.eqb (obj_type o) "table".

(** The full run of the lister over the catalog [s] when nothing fails. *)
Definition lister_report (s : list object) : list event :=
  EvConnect
  :: EvExecute master_query true
  :: EvPrint "Tables in database:"
  :: map (fun o => EvPrint ("  - " ++ obj_name o)) (filter catalog_table s)
  ++ flat_map (fun o => table_block (obj_name o) (obj_data o)) (filter catalog_table s)
  ++ [EvClose].

(** The names under which the catalog itself is read. *)
Definition master_name (name : string) : bool :=
  name_eqb name "sqlite_master" || name_eqb name "sqlite_schema".

(** A name that can be pasted into SQL text as it is. *)
Definition bare_name (name : string) : bool :=
  plain_identifier name && negb (reserved name) && negb (master_name name).

(** ** The schema the report expects *)

Definition has_columns (s : list object) (name : string) (cols : list string) : Prop :=
  exists t, find_relation s name = Some t
            /\ forall c, In c cols -> column_index (tbl_columns t) c <> None.

(** The five tables, each with the columns the report names. *)
Definition expected_schema (s : list object) : Prop :=
  has_columns s "files" ["file_path"; "status"]
  /\ has_columns s "pois" ["file_path"; "name"; "type"; "start_line"; "end_line"]
  /\ has_columns s "relationships" ["type"; "status"]
  /\ has_columns s "relationship_evidence" []
  /\ has_columns s "transactional_outbox" ["event_type"; "processed"].

(** ** The guards on the expected schema *)



(** ** Storage order and insertion order *)








(** ** Empty under a collating sequence *)

(** NULL, or a text that compares equal to the empty string under [k]. *)
Definition empty_under (k : collation) (v : value) : bool :=
  match v with
  | VNull => true
  | VText s => text_eqb k s ""
  | VInt _ => false
  end.

(** The data-quality block as the run has it: each count is taken under
    the collating sequence of its column. *)
Definition quality_report (t : table) (i_name i_type : nat) (post : list event)
  : list event :=
  EvExecute q_empty_names true
  :: EvExecute q_empty_types true
  :: EvPrint ("POIs with empty names: "
              ++ py_str (VInt (count_rows
                   (fun r => empty_under (column_collation t "name" i_name)
                                         (cell i_name r))
                   (tbl_rows t))))
  :: EvPrint ("POIs with empty types: "
              ++ py_str (VInt (count_rows
                   (fun r => empty_under (column_collation t "type" i_type)
                                         (cell i_type r))
                   (tbl_rows t))))
  :: post.

(** ** Example databases *)

Definition simple_table (name : string) (cols : list (string * string))
  (rows : list row) : object :=
  mk_object "table" name name 2 VNull
    (mk_table (map (fun c => plain_column (fst c) (snd c)) cols) rows).

Definition demo_files : table :=
  mk_table
    [ plain_column "id" "INTEGER"; plain_column "file_path" "TEXT";
      plain_column "status" "TEXT" ]
    [ [VInt 1; VText "src/a.js"; VText "processed"];
      [VInt 2; VText "src/b.js"; VText "pending"] ].

Definition demo_pois : table :=
  mk_table
    [ plain_column "id" "INTEGER"; plain_column "file_path" "TEXT";
      plain_column "name" "TEXT"; plain_column "type" "TEXT";
      plain_column "start_line" "INTEGER"; plain_column "end_line" "INTEGER" ]
    [ [VInt 1; VText "src/a.js"; VText "foo"; VText "function"; VInt 1; VInt 5];
      [VInt 2; VText "src/a.js"; VText ""; VText "class"; VInt 6; VInt 9];
      [VInt 3; VText "src/b.js"; VNull; VText "function"; VInt 1; VInt 2];
      [VInt 4; VText "src/b.js"; VText "x"; VNull; VInt 3; VInt 4];
      [VInt 5; VText "src/b.js"; VText "y"; VText ""; VInt 5; VInt 6];
      [VInt 6; VText "src/b.js"; VText "z"; VText "class"; VInt 7; VInt 8] ].

Definition demo_relationships : table :=
  mk_table
    [ plain_column "id" "INTEGER"; plain_column "type" "TEXT";
      plain_column "status" "TEXT" ]
    [ [VInt 1; VText "calls"; VText "validated"];
      [VInt 2; VText "calls"; VText "pending"];
      [VInt 3; VText "imports"; VText "validated"] ].

Definition demo_evidence : table :=
  mk_table [ plain_column "id" "INTEGER" ] [].

Definition demo_outbox : table :=
  mk_table
    [ plain_column "id" "INTEGER"; plain_column "event_type" "TEXT";
      plain_column "processed" "INTEGER" ]
    [ [VInt 1; VText "poi-found"; VInt 0];
      [VInt 2; VText "poi-found"; VInt 1];
      [VInt 3; VText "poi-found"; VInt 0] ].

Definition stored (name : string) (t : table) : object :=
  mk_object "table" name name 2 VNull t.

(** A populated database with the five tables of the report. *)
Definition demo_schema : list object :=
  [ stored "files" demo_files; stored "pois" demo_pois;
    stored "relationships" demo_relationships;
    stored "relationship_evidence" demo_evidence;
    stored "transactional_outbox" demo_outbox ].

(** The five tables, each with its columns and no rows. *)
Definition empty_schema : list object :=
  [ stored "files" (mk_table (tbl_columns demo_files) []);
    stored "pois" (mk_table (tbl_columns demo_pois) []);
    stored "relationships" (mk_table (tbl_columns demo_relationships) []);
    stored "relationship_evidence" (mk_table (tbl_columns demo_evidence) []);
    stored "transactional_outbox" (mk_table (tbl_columns demo_outbox) []) ].

(** A database with a table whose name has a space in it. *)
Definition spaced_schema : list object :=
  [ simple_table "my table" [("id", "INTEGER"); ("label", "TEXT")]
      [[VInt 1; VText "a"]; [VInt 2; VText "b"]];
    simple_table "files" [("file_path", "TEXT"); ("status", "TEXT")]
      [[VText "src/a.js"; VText "processed"]] ].




(** A pois table whose name column is declared COLLATE RTRIM, with one row
    whose name is three spaces. *)
Definition rtrim_pois : table :=
  mk_table
    [ plain_column "id" "INTEGER"; plain_column "file_path" "TEXT";
      mk_column "name" "TEXT" 0 VNull 0 RTrim; plain_column "type" "TEXT";
      plain_column "start_line" "INTEGER"; plain_column "end_line" "INTEGER" ]
    [ [VInt 1; VText "src/a.js"; VText "   "; VText "function"; VInt 1; VInt 5] ].

Definition rtrim_schema : list object :=
  [ stored "files" demo_files; stored "pois" rtrim_pois;
    stored "relationships" demo_relationships;
    stored "relationship_evidence" demo_evidence;
    stored "transactional_outbox" demo_outbox ].

End Spec.

(* ================================================================== *)
(** * Further vocabulary: what the scripts send, print and need *)
(* ================================================================== *)

Module Behaviour.
Import Sql Py Closed Text Trace Spec AnalyzeDatabase CheckTables.

(** ** The report's statements *)

(** The statement texts of [analyze_database], in program order. *)
Definition report_queries : list string :=
  [ q_count_files; q_sample_files;
    q_count_pois; q_pois_by_type; q_sample_pois;
    q_count_rels; q_rels_by_type; q_rels_by_status; q_validated;
    q_count_evidence;
    q_count_outbox; q_outbox_groups;
    q_empty_names; q_empty_types; q_first_poi ].

(** The text is a SELECT of the grammar: it reads and changes nothing. *)
Definition is_select (sql : string) : bool :=
  match parse_sql sql with
  | Some (SSelect _) => true
  | _ => false
  end.

(** [l] is [r] with some elements left out. *)
Fixpoint is_subseq (l r : list string) : bool :=
  match l, r with
  | [], _ => true
  | _ :: _, [] => false
  | x :: l', y :: r' => if String.eqb x y then is_subseq l' r' else is_subseq l r'
  end.

(** The statements of a run, in order. *)
Definition sent (evs : list event) : list string := map fst (query_log evs).

(** ** Validated relationships *)

(** [status = 'validated'] on a column with collating sequence [k]: a text
    that compares equal to [validated] under [k]. *)
Definition validated_under (k : collation) (v : value) : bool :=
  match v with
  | VText s => text_eqb k s "validated"
  | _ => false
  end.

(** ** The full dump of the first POI *)



(** ** What the report needs of the database *)

(** The table exists, and when it has rows it has the columns [cols]. *)
Definition table_ready (s : list object) (name : string) (cols : list string) : Prop :=
  exists t, find_relation s name = Some t
            /\ (tbl_rows t <> [] ->
                forall c, In c cols -> column_index (tbl_columns t) c <> None).

Definition report_ready (s : list object) : Prop :=
  table_ready s "files" ["file_path"; "status"]
  /\ table_ready s "pois" ["type"; "file_path"; "name"; "start_line"; "end_line"]
  /\ table_ready s "relationships" ["type"; "status"]
  /\ table_ready s "relationship_evidence" []
  /\ table_ready s "transactional_outbox" ["event_type"; "processed"].

End Behaviour.

(* ================================================================== *)
(** * Theorems *)
(* ================================================================== *)

Import Sql Py Closed Text Trace Spec Behaviour AnalyzeDatabase CheckTables.

(* ================================================================== *)
(** * Facts about the SQL evaluator *)
(* ================================================================== *)

Lemma filter_all {A : Type} (l : list A) : filter (fun _ => true) l = l.
Proof. induction l; simpl; congruence. Qed.

(** [SELECT COUNT( * ) FROM t] *)
Lemma run_count (s : list object) (from : string) :
  run_select s (mk_select [RCountStar] from None [] None) = count_of s from.
Proof.
  unfold run_select, count_of, with_table; cbn.
  destruct (find_relation s from) as [t|]; [|reflexivity].
  cbn. rewrite filter_all. reflexivity.
Qed.

(** [SELECT COUNT( * ) FROM t WHERE c = 'v'] *)
Lemma run_count_eq s from c v :
  run_select s (mk_select [RCountStar] from (Some (CEq (ACol c) (AStr v))) [] None) =
  count_where s from c (fun k x => sql_eq k x (VText v)).
Proof.
  unfold run_select, count_where, with_table, with_column, column_collation; cbn.
  destruct (find_relation s from) as [t|]; [|reflexivity].
  cbn. unfold comparison_collation, atom_collation.
  destruct (column_index (tbl_columns t) c) as [i|]; reflexivity.
Qed.

(** [SELECT COUNT( * ) FROM t WHERE c IS NULL OR c = ''] *)
Lemma run_count_null_or_empty s from c :
  run_select s (mk_select [RCountStar] from
                  (Some (COr (CIsNull (ACol c)) (CEq (ACol c) (AStr "")))) [] None) =
  count_where s from c null_or_empty.
Proof.
  unfold run_select, count_where, with_table, with_column, column_collation; cbn.
  destruct (find_relation s from) as [t|]; [|reflexivity].
  cbn. unfold comparison_collation, atom_collation.
  destruct (column_index (tbl_columns t) c) as [i|]; reflexivity.
Qed.

Lemma bind_names_length cols cs ks :
  bind_names cols cs = inr ks -> List.length ks = List.length cs.
Proof.
  revert ks. induction cs as [|c cs IH]; cbn; intros ks H.
  - inversion H. reflexivity.
  - destruct (column_index cols c); [|discriminate].
    destruct (bind_names cols cs); inversion H. cbn. f_equal. auto.
Qed.

Lemma bind_results_cols t cs more :
  bind_results (tbl_columns t) (map RCol cs ++ more) =
  match bind_names (tbl_columns t) cs with
  | inl e => inl e
  | inr ks =>
      match bind_results (tbl_columns t) more with
      | inl e => inl e
      | inr items => inr (cell_items t cs ks ++ items)
      end
  end.
Proof.
  induction cs as [|c cs IH]; cbn.
  - destruct (bind_results (tbl_columns t) more); reflexivity.
  - destruct (column_index (tbl_columns t) c) as [i|]; [|reflexivity].
    rewrite IH.
    destruct (bind_names (tbl_columns t) cs); [reflexivity|].
    destruct (bind_results (tbl_columns t) more); reflexivity.
Qed.

Lemma labels_fst t cs ks :
  List.length ks = List.length cs ->
  map fst (cell_items t cs ks) = column_labels t cs ks.
Proof.
  unfold cell_items.
  revert ks. induction cs as [|c cs IH]; intros [|i ks] H; cbn in *;
    try discriminate; auto.
  f_equal. apply IH. congruence.
Qed.

Lemma cells_not_count t cs ks : existsb is_count (cell_items t cs ks) = false.
Proof.
  unfold cell_items. generalize (column_labels t cs ks) as ls.
  induction ks; intros [|l ls]; cbn; auto.
Qed.

Lemma eval_cells t cs ks g :
  List.length ks = List.length cs ->
  map (eval_item g) (cell_items t cs ks) = map (fun i => group_cell i g) ks.
Proof.
  unfold cell_items.
  revert ks. induction cs as [|c cs IH]; intros [|i ks] H; cbn in *;
    try discriminate; auto.
  f_equal. apply IH. congruence.
Qed.

(** [SELECT c1, ..., ck FROM t [LIMIT n]] *)
Lemma run_plain s from cs l :
  run_select s (mk_select (map RCol cs) from None [] l) =
  with_table s from (fun t => with_columns t cs (fun ks =>
    inr (mk_result (column_labels t cs ks)
           (map (fun r => map (fun i => cell i r) ks)
                (apply_limit l (tbl_rows t)))))).
Proof.
  unfold run_select, with_table, with_columns.
  cbn [sel_from sel_results sel_where sel_group sel_limit].
  destruct (find_relation s from) as [t|]; [|reflexivity].
  cbn [bind_where bind_names].
  rewrite <- (app_nil_r (map RCol cs)), bind_results_cols. cbn [bind_results].
  destruct (bind_names (tbl_columns t) cs) as [e|ks] eqn:E; [reflexivity|].
  apply bind_names_length in E.
  rewrite app_nil_r, labels_fst, filter_all by assumption.
  unfold groups_of. rewrite cells_not_count, map_map.
  do 2 f_equal.
  destruct l as [n|]; cbn [apply_limit]; [rewrite firstn_map|];
    apply map_ext; intro r; apply eval_cells; assumption.
Qed.

(** [SELECT c1, ..., ck, COUNT( * ) FROM t GROUP BY c1, ..., ck] *)
Lemma run_grouped s from c cs :
  run_select s (mk_select (map RCol (c :: cs) ++ [RCountStar]) from None (c :: cs) None) =
  grouped s from (c :: cs).
Proof.
  unfold run_select, grouped, with_table, with_columns.
  cbn [sel_from sel_results sel_where sel_group sel_limit].
  destruct (find_relation s from) as [t|]; [|reflexivity].
  cbn [bind_where].
  rewrite bind_results_cols. cbn [bind_results bind_result app].
  destruct (bind_names (tbl_columns t) (c :: cs)) as [e|ks] eqn:E; [reflexivity|].
  apply bind_names_length in E.
  rewrite map_app, labels_fst, filter_all by assumption.
  cbn [apply_limit map fst].
  destruct ks as [|k ks]; [discriminate|].
  cbn [groups_of].
  do 2 f_equal.
  apply map_ext; intro g. rewrite map_app, eval_cells by assumption. reflexivity.
Qed.

Lemma star_fst cols n :
  map fst (map (fun ic : nat * column => (col_name (snd ic), ICell (fst ic)))
             (combine (seq n (List.length cols)) cols)) = map col_name cols.
Proof.
  revert n. induction cols; intro n; cbn; auto. f_equal. apply IHcols.
Qed.

Lemma star_eval cols n g :
  map (eval_item g)
      (map (fun ic : nat * column => (col_name (snd ic), ICell (fst ic)))
         (combine (seq n (List.length cols)) cols)) =
  map (fun i => group_cell i g) (seq n (List.length cols)).
Proof.
  revert n. induction cols; intro n; cbn; auto. f_equal. apply IHcols.
Qed.

Lemma star_not_count cols n :
  existsb is_count
    (map (fun ic : nat * column => (col_name (snd ic), ICell (fst ic)))
       (combine (seq n (List.length cols)) cols)) = false.
Proof. revert n. induction cols; intro n; cbn; auto. Qed.

(** [SELECT * FROM t [LIMIT n]] *)
Lemma run_star s from l :
  run_select s (mk_select [RStar] from None [] l) =
  with_table s from (fun t =>
    inr (mk_result (map col_name (tbl_columns t))
           (map (fun r => map (fun i => cell i r)
                              (seq 0 (List.length (tbl_columns t))))
                (apply_limit l (tbl_rows t))))).
Proof.
  unfold run_select, with_table.
  cbn [sel_from sel_results sel_where sel_group sel_limit].
  destruct (find_relation s from) as [t|]; [|reflexivity].
  cbn [bind_where bind_names bind_results bind_result].
  rewrite app_nil_r. unfold star_items, groups_of.
  rewrite star_fst, star_not_count, filter_all, map_map.
  do 2 f_equal.
  destruct l as [n|]; cbn [apply_limit]; [rewrite firstn_map|];
    apply map_ext; intro r; apply star_eval.
Qed.

(** [SELECT name FROM sqlite_master WHERE type='table'] *)
Lemma run_master s :
  run_select s (mk_select [RCol "name"] "sqlite_master"
                  (Some (CEq (ACol "type") (AStr "table"))) [] None) =
  inr (mk_result ["name"] (map (fun n => [VText n]) (table_names s))).
Proof.
  unfold run_select, table_names. cbn. do 2 f_equal.
  induction s as [|o s IH]; cbn; [reflexivity|].
  destruct (String.eqb (obj_type o) "table"); cbn; rewrite IH; reflexivity.
Qed.

(** ** The statements of the report, one by one *)

Ltac exec_with L :=
  unfold execute;
  match goal with
  | |- context [parse_sql ?q] =>
      let p := eval vm_compute in (parse_sql q) in
      replace (parse_sql q) with p by (vm_compute; reflexivity)
  end;
  exact L.

Lemma exec_not_a_db q : execute NotADatabase q = inl NotADb.
Proof. reflexivity. Qed.

Lemma exec_count_files s :
  execute (Database s) "SELECT COUNT(*) FROM files" = count_of s "files".
Proof. exec_with (run_count s "files"). Qed.

Lemma exec_count_pois s :
  execute (Database s) "SELECT COUNT(*) FROM pois" = count_of s "pois".
Proof. exec_with (run_count s "pois"). Qed.

Lemma exec_count_relationships s :
  execute (Database s) "SELECT COUNT(*) FROM relationships" = count_of s "relationships".
Proof. exec_with (run_count s "relationships"). Qed.

Lemma exec_count_evidence s :
  execute (Database s) "SELECT COUNT(*) FROM relationship_evidence" =
  count_of s "relationship_evidence".
Proof. exec_with (run_count s "relationship_evidence"). Qed.

Lemma exec_count_outbox s :
  execute (Database s) "SELECT COUNT(*) FROM transactional_outbox" =
  count_of s "transactional_outbox".
Proof. exec_with (run_count s "transactional_outbox"). Qed.

Lemma exec_sample_files s :
  execute (Database s) "SELECT file_path, status FROM files LIMIT 5" =
  with_table s "files" (fun t => with_columns t ["file_path"; "status"] (fun ks =>
    inr (mk_result (column_labels t ["file_path"; "status"] ks)
           (map (fun r => map (fun i => cell i r) ks) (firstn 5 (tbl_rows t)))))).
Proof. exec_with (run_plain s "files" ["file_path"; "status"] (Some 5)). Qed.

Lemma exec_sample_pois s :
  execute (Database s)
    "SELECT file_path, name, type, start_line, end_line FROM pois LIMIT 5" =
  with_table s "pois" (fun t =>
    with_columns t ["file_path"; "name"; "type"; "start_line"; "end_line"] (fun ks =>
    inr (mk_result
           (column_labels t ["file_path"; "name"; "type"; "start_line"; "end_line"] ks)
           (map (fun r => map (fun i => cell i r) ks) (firstn 5 (tbl_rows t)))))).
Proof.
  exec_with (run_plain s "pois"
               ["file_path"; "name"; "type"; "start_line"; "end_line"] (Some 5)).
Qed.

Lemma exec_pois_by_type s :
  execute (Database s) "SELECT type, COUNT(*) FROM pois GROUP BY type" =
  grouped s "pois" ["type"].
Proof. exec_with (run_grouped s "pois" "type" []). Qed.

Lemma exec_rels_by_type s :
  execute (Database s) "SELECT type, COUNT(*) FROM relationships GROUP BY type" =
  grouped s "relationships" ["type"].
Proof. exec_with (run_grouped s "relationships" "type" []). Qed.

Lemma exec_rels_by_status s :
  execute (Database s) "SELECT status, COUNT(*) FROM relationships GROUP BY status" =
  grouped s "relationships" ["status"].
Proof. exec_with (run_grouped s "relationships" "status" []). Qed.

Lemma exec_outbox_groups s :
  execute (Database s)
    "SELECT event_type, processed, COUNT(*) FROM transactional_outbox GROUP BY event_type, processed" =
  grouped s "transactional_outbox" ["event_type"; "processed"].
Proof. exec_with (run_grouped s "transactional_outbox" "event_type" ["processed"]). Qed.

Lemma exec_validated s :
  execute (Database s)
    "SELECT COUNT(*) FROM relationships WHERE status = 'validated'" =
  count_where s "relationships" "status" (fun k v => sql_eq k v (VText "validated")).
Proof. exec_with (run_count_eq s "relationships" "status" "validated"). Qed.

Lemma exec_empty_names s :
  execute (Database s) "SELECT COUNT(*) FROM pois WHERE name IS NULL OR name = ''" =
  count_where s "pois" "name" null_or_empty.
Proof. exec_with (run_count_null_or_empty s "pois" "name"). Qed.

Lemma exec_empty_types s :
  execute (Database s) "SELECT COUNT(*) FROM pois WHERE type IS NULL OR type = ''" =
  count_where s "pois" "type" null_or_empty.
Proof. exec_with (run_count_null_or_empty s "pois" "type"). Qed.

Lemma exec_first_poi s :
  execute (Database s) "SELECT * FROM pois LIMIT 1" =
  with_table s "pois" (fun t =>
    inr (mk_result (map col_name (tbl_columns t))
           (map (fun r => map (fun i => cell i r)
                              (seq 0 (List.length (tbl_columns t))))
                (firstn 1 (tbl_rows t))))).
Proof. exec_with (run_star s "pois" (Some 1)). Qed.

Lemma exec_master s :
  execute (Database s) master_query =
  inr (mk_result ["name"] (map (fun n => [VText n]) (table_names s))).
Proof. unfold master_query. exec_with (run_master s). Qed.

(** ** Grouping keeps every row *)



(** The WHERE test of the data-quality statements on a column with
    collating sequence [k]. *)
Lemma holds_null_or_empty k v : holds (null_or_empty k v) = empty_under k v.
Proof.
  destruct v as [|z|x]; try reflexivity.
  unfold null_or_empty, empty_under, sql_eq, sql_is_null, sql_or, holds.
  destruct (text_eqb k x ""); reflexivity.
Qed.

Lemma count_empty k i rows :
  count_rows (fun r => empty_under k (cell i r)) rows =
  Z.of_nat (List.length (filter (fun r => holds (null_or_empty k (cell i r))) rows)).
Proof.
  unfold count_rows. do 2 f_equal. apply filter_ext. intro r.
  symmetry. apply holds_null_or_empty.
Qed.

(** Under BINARY and NOCASE only the empty text equals the empty text: there
    the test is the spec's "NULL or the empty string". *)
Lemma empty_under_plain k v : k <> RTrim -> empty_under k v = empty_or_null v.
Proof.
  intro Hk. destruct v as [|z|x]; try reflexivity.
  destruct k; [| |contradiction]; cbn [empty_under text_eqb empty_or_null].
  - destruct x; reflexivity.
  - destruct x; reflexivity.
Qed.

Lemma count_empty_plain k i rows :
  k <> RTrim ->
  count_rows (fun r => empty_under k (cell i r)) rows
  = count_rows (fun r => empty_or_null (cell i r)) rows.
Proof.
  intro Hk. unfold count_rows. do 2 f_equal. apply filter_ext. intro r.
  apply empty_under_plain. exact Hk.
Qed.

(* ================================================================== *)
(** * Facts about the lexer and the parser on pasted-in names *)
(* ================================================================== *)

Lemma lex_app st a b :
  lex st (a ++ b) = fst (lex_run st a) ++ lex (snd (lex_run st a)) b.
Proof.
  revert st. induction a as [|c a IH]; intro st;
    cbn [lex_run fst snd String.append lex app].
  - reflexivity.
  - rewrite IH, app_assoc. reflexivity.
Qed.

Lemma lex_end st a :
  lex st a = fst (lex_run st a) ++ lex_flush (snd (lex_run st a)).
Proof.
  revert st. induction a as [|c a IH]; intro st; cbn [lex_run fst snd lex app].
  - reflexivity.
  - rewrite IH, app_assoc. reflexivity.
Qed.

Lemma lex_close_paren st : lex st ")" = close_paren st.
Proof. destruct st; reflexivity. Qed.

Lemma tokens_pragma name :
  tokens (pragma_query name) =
  TWord "PRAGMA" :: TWord "table_info" :: TLParen :: lex LIdle (name ++ ")").
Proof. reflexivity. Qed.

Lemma tokens_count name :
  tokens (count_query name) =
  TWord "SELECT" :: TWord "COUNT" :: TLParen :: TStar :: TRParen :: TWord "FROM"
    :: tokens name.
Proof. reflexivity. Qed.

Lemma as_name_word t w : as_name t = Some w -> t = TWord w /\ reserved w = false.
Proof.
  unfold as_name. destruct t; try (intro H; discriminate H).
  destruct (reserved w0) eqn:E; intro H; [discriminate H|]. inversion H; subst. auto.
Qed.

Lemma parse_pragma_shape rest st :
  parse_stmt (TWord "PRAGMA" :: rest) = Some st -> exists w, st = SPragmaTableInfo w.
Proof.
  cbn [parse_stmt is_kw]. change (String.eqb (lower "PRAGMA") "select") with false.
  change (String.eqb (lower "PRAGMA") "pragma") with true. cbv iota.
  repeat match goal with
         | |- context [match ?x with _ => _ end] => destruct x; try discriminate
         end.
  all: destruct (as_name _); cbn; intro H; inversion H; eauto.
Qed.

(** If the PRAGMA on a pasted-in name parses, the name is one bare word. *)
Lemma pragma_parses name w :
  parse_sql (pragma_query name) = Some (SPragmaTableInfo w) ->
  tokens name = [TWord w] /\ reserved w = false.
Proof.
  unfold parse_sql. rewrite tokens_pragma.
  cbn [parse_stmt is_kw]. change (String.eqb (lower "PRAGMA") "select") with false.
  change (String.eqb (lower "PRAGMA") "pragma") with true. cbv iota.
  rewrite lex_app, lex_close_paren.
  unfold tokens. rewrite (lex_end LIdle name).
  destruct (lex_run LIdle name) as [out st]. cbn [fst snd].
  intro H.
  assert (E : exists t k, out ++ close_paren st = t :: TRParen :: k
                          /\ at_end k = true /\ as_name t = Some w).
  { destruct (out ++ close_paren st) as [|t [|t2 k]]; try discriminate.
    destruct t2; try discriminate.
    change (is_kw "table_info" (TWord "table_info")) with true in H.
    cbn [andb] in H. destruct (at_end k) eqn:Ek; [|discriminate].
    destruct (as_name t) as [w'|] eqn:Et; [|discriminate].
    inversion H; subst. eauto. }
  clear H. destruct E as (t & k & E & Ek & Et).
  apply as_name_word in Et. destruct Et as [-> Hr]. split; [|exact Hr].
  assert (Hk : k = [] \/ k = [TSemi]).
  { destruct k as [|[] [|? ?]]; try discriminate; auto. }
  destruct st as [|w'|acc|acc]; cbn [close_paren lex_flush] in *.
  - (* between tokens *)
    destruct Hk as [-> | ->].
    + change [TWord w; TRParen] with ([TWord w] ++ [TRParen]) in E.
      apply app_inj_tail in E. destruct E as [-> _]. reflexivity.
    + change [TWord w; TRParen; TSemi] with ([TWord w; TRParen] ++ [TSemi]) in E.
      apply app_inj_tail in E. destruct E as [_ E]. discriminate.
  - (* inside a word *)
    destruct Hk as [-> | ->].
    + change (out ++ [word_token w'; TRParen])
        with (out ++ [word_token w'] ++ [TRParen]) in E.
      rewrite app_assoc in E.
      change [TWord w; TRParen] with ([TWord w] ++ [TRParen]) in E.
      apply app_inj_tail in E. destruct E as [E _].
      change [TWord w] with ([] ++ [TWord w]) in E.
      apply app_inj_tail in E. destruct E as [-> ->]. reflexivity.
    + change (out ++ [word_token w'; TRParen])
        with (out ++ [word_token w'] ++ [TRParen]) in E.
      rewrite app_assoc in E.
      change [TWord w; TRParen; TSemi] with ([TWord w; TRParen] ++ [TSemi]) in E.
      apply app_inj_tail in E. destruct E as [_ E]. discriminate.
  - (* inside a literal that never closes *)
    destruct Hk as [-> | ->].
    + change [TWord w; TRParen] with ([TWord w] ++ [TRParen]) in E.
      apply app_inj_tail in E. destruct E as [_ E]. discriminate.
    + change [TWord w; TRParen; TSemi] with ([TWord w; TRParen] ++ [TSemi]) in E.
      apply app_inj_tail in E. destruct E as [_ E]. discriminate.
  - (* just after a literal *)
    destruct Hk as [-> | ->].
    + change (out ++ [TStr acc; TRParen]) with (out ++ [TStr acc] ++ [TRParen]) in E.
      rewrite app_assoc in E.
      change [TWord w; TRParen] with ([TWord w] ++ [TRParen]) in E.
      apply app_inj_tail in E. destruct E as [E _].
      change [TWord w] with ([] ++ [TWord w]) in E.
      apply app_inj_tail in E. destruct E as [_ E]. discriminate.
    + change (out ++ [TStr acc; TRParen]) with (out ++ [TStr acc] ++ [TRParen]) in E.
      rewrite app_assoc in E.
      change [TWord w; TRParen; TSemi] with ([TWord w; TRParen] ++ [TSemi]) in E.
      apply app_inj_tail in E. destruct E as [_ E]. discriminate.
Qed.

Lemma count_parses name w :
  tokens name = [TWord w] -> reserved w = false ->
  parse_sql (count_query name) =
  Some (SSelect (mk_select [RCountStar] w None [] None)).
Proof.
  intros Ht Hr. unfold parse_sql. rewrite tokens_count, Ht.
  cbn [parse_stmt is_kw]. change (String.eqb (lower "SELECT") "select") with true.
  cbv iota. unfold parse_select.
  cbn [parse_results]. change (String.eqb (lower "COUNT") "count") with true. cbv iota.
  cbn [is_kw]. change (String.eqb (lower "FROM") "from") with true. cbv iota.
  cbn [as_name]. rewrite Hr. reflexivity.
Qed.

Lemma table_info_rows s w :
  rs_rows (run_table_info s w) = map table_info_row (info_columns s w).
Proof. unfold run_table_info, info_columns. destruct (find_relation s w); reflexivity. Qed.

(** A PRAGMA on a pasted-in name that returns was about one bare word. *)
Lemma exec_pragma s name rs :
  execute (Database s) (pragma_query name) = inr rs ->
  exists w, tokens name = [TWord w] /\ reserved w = false /\ rs = run_table_info s w.
Proof.
  unfold execute.
  destruct (parse_sql (pragma_query name)) as [st|] eqn:E; [|discriminate].
  assert (exists w, st = SPragmaTableInfo w) as [w ->].
  { revert E. unfold parse_sql. rewrite tokens_pragma. apply parse_pragma_shape. }
  apply pragma_parses in E. destruct E as [Ht Hr].
  cbn [run_stmt]. intro H; inversion H. eauto.
Qed.

Lemma exec_count_name s name w :
  tokens name = [TWord w] -> reserved w = false ->
  execute (Database s) (count_query name) = count_of s w.
Proof.
  intros Ht Hr. unfold execute. rewrite (count_parses name w Ht Hr).
  apply run_count.
Qed.

(* ================================================================== *)
(** * Facts about the Python layer *)
(* ================================================================== *)

Lemma bind_ok {A B : Type} (m : M A) (f : A -> M B) c evs c' a :
  m c = mk_outcome evs c' (inr a) -> bind m f c = push evs (f a c').
Proof. unfold bind, push. intros ->. destruct (f a c'); reflexivity. Qed.

Lemma bind_err {A B : Type} (m : M A) (f : A -> M B) c evs c' e :
  m c = mk_outcome evs c' (inl e) -> bind m f c = mk_outcome evs c' (inl e).
Proof. unfold bind. intros ->. reflexivity. Qed.

Lemma for_each_map {A B : Type} (f : A -> B) (xs : list A) (body : B -> M unit) :
  for_each (map f xs) body = for_each xs (fun x => body (f x)).
Proof. induction xs; cbn; [reflexivity|]. rewrite IHxs. reflexivity. Qed.

(** A loop whose body only prints. *)
Lemma for_each_prints {A : Type} (g : A -> string) (xs : list A) (body : A -> M unit) :
  (forall x c, body x c = mk_outcome [EvPrint (g x)] c (inr tt)) ->
  forall c, for_each xs body c = mk_outcome (map (fun x => EvPrint (g x)) xs) c (inr tt).
Proof.
  intros H. induction xs as [|x xs IH]; intro c; cbn; [reflexivity|].
  unfold bind. rewrite H, IH. reflexivity.
Qed.

Lemma for_each_rows {A : Type} (F : A -> row) (g : A -> string) (xs : list A)
  (body : row -> M unit) :
  (forall x c, body (F x) c = mk_outcome [EvPrint (g x)] c (inr tt)) ->
  forall c, for_each (map F xs) body c =
            mk_outcome (map (fun x => EvPrint (g x)) xs) c (inr tt).
Proof.
  intros H c. rewrite for_each_map. apply for_each_prints. exact H.
Qed.

(** The loop over [enumerate(columns)] that subscripts a row as wide as
    [columns]. *)
Lemma for_each_indexed (g : string -> value -> string) (names : list string)
  (vals : row) (body : nat * string -> M unit) :
  List.length vals = List.length names ->
  (forall i n v c, nth_error vals i = Some v ->
     body (i, n) c = mk_outcome [EvPrint (g n v)] c (inr tt)) ->
  forall c, for_each (enumerate names) body c =
            mk_outcome (map (fun nv => EvPrint (g (fst nv) (snd nv)))
                            (combine names vals)) c (inr tt).
Proof.
  unfold enumerate. intros Hlen H.
  assert (G : forall k names' vals',
             List.length vals' = List.length names' ->
             (forall i v, nth_error vals' i = Some v -> nth_error vals (k + i) = Some v) ->
             forall c, for_each (combine (seq k (List.length names')) names') body c =
               mk_outcome (map (fun nv => EvPrint (g (fst nv) (snd nv)))
                               (combine names' vals')) c (inr tt)).
  { intros k names'. revert k.
    induction names' as [|n names' IH]; intros k [|v vals'] Hl Hv c; cbn in *;
      try discriminate; [reflexivity|].
    unfold bind. rewrite (H k n v).
    - rewrite (IH (S k) vals'); [reflexivity|congruence|].
      intros i v' Hi. replace (S k + i) with (k + S i) by lia. apply Hv. exact Hi.
    - specialize (Hv 0 v eq_refl). rewrite Nat.add_0_r in Hv. exact Hv. }
  apply (G 0 names vals Hlen). intros i v Hi. exact Hi.
Qed.

(* ================================================================== *)
(** * Facts about events *)
(* ================================================================== *)

Lemma tail_shape_app a b :
  forallb is_plain a = true -> tail_shape (a ++ b) = tail_shape b.
Proof.
  induction a as [|e a IH]; cbn; [reflexivity|].
  destruct e as [|q [|]|t|]; cbn; try discriminate; auto.
Qed.

Lemma plain_prints {A : Type} (g : A -> string) xs :
  forallb is_plain (map (fun x => EvPrint (g x)) xs) = true.
Proof. induction xs; cbn; auto. Qed.

Lemma tail_shape_spec rest b :
  tail_shape rest = Some b ->
  exists body, forallb is_plain body = true /\
    if b then rest = body ++ [EvClose]
    else exists q, rest = body ++ [EvExecute q false].
Proof.
  induction rest as [|e rest IH]; [intro H; discriminate H|].
  destruct e as [|q [|]|t|]; cbn; intro H.
  - discriminate H.
  - destruct (IH H) as (body & Hp & Hb).
    exists (EvExecute q true :: body). split; [exact Hp|].
    destruct b; [subst; reflexivity|]. destruct Hb as [q' ->]. exists q'. reflexivity.
  - destruct rest; [|discriminate H]. inversion H; subst.
    exists []. split; [reflexivity|]. exists q. reflexivity.
  - destruct (IH H) as (body & Hp & Hb).
    exists (EvPrint t :: body). split; [exact Hp|].
    destruct b; [subst; reflexivity|]. destruct Hb as [q' ->]. exists q'. reflexivity.
  - destruct rest; [|discriminate H]. inversion H; subst.
    exists []. split; reflexivity.
Qed.

Lemma plain_in body e : forallb is_plain body = true -> In e body -> is_plain e = true.
Proof. rewrite forallb_forall. auto. Qed.

Lemma split_at_last (body : list event) (l : event) pre x post :
  ~ In x body -> body ++ [l] = pre ++ x :: post -> post = [] /\ l = x.
Proof.
  revert pre. induction body as [|b body IH]; intros pre Hn E.
  - destruct pre as [|p pre]; cbn in E.
    + inversion E. auto.
    + inversion E. destruct pre; discriminate.
  - destruct pre as [|p pre]; cbn in E; inversion E; subst.
    + exfalso. apply Hn. left. reflexivity.
    + apply (IH pre); [|assumption]. intro H. apply Hn. right. exact H.
Qed.

Lemma in_prints {A : Type} (g : A -> string) xs q ok :
  ~ In (EvExecute q ok) (map (fun x => EvPrint (g x)) xs).
Proof. induction xs; cbn; [tauto|]. intros [H|H]; [discriminate|auto]. Qed.

Lemma in_query_log q ok evs :
  In (EvExecute q ok) evs -> In (q, ok) (query_log evs).
Proof.
  unfold query_log. intro H. apply in_flat_map. exists (EvExecute q ok).
  split; [exact H|left; reflexivity].
Qed.

Lemma query_log_prints {A : Type} (g : A -> string) xs l :
  flat_map log_entry (map (fun x => EvPrint (g x)) xs ++ l) = flat_map log_entry l.
Proof. induction xs; cbn; auto. Qed.

Lemma in_logged q ok l : In (q, ok) l -> logged q ok l = true.
Proof.
  intro H. apply existsb_exists. exists (q, ok). split; [exact H|].
  cbn. rewrite String.eqb_refl, Bool.eqb_reflx. reflexivity.
Qed.

Lemma in_attempted q ok l : In (q, ok) l -> attempted q l = true.
Proof.
  intro H. apply existsb_exists. exists (q, ok). split; [exact H|].
  cbn. apply String.eqb_refl.
Qed.

Lemma in_print_log t evs : In (EvPrint t) evs -> In t (flat_map print_entry evs).
Proof.
  intro H. apply in_flat_map. exists (EvPrint t). split; [exact H|left; reflexivity].
Qed.


Lemma occurs_here seg post : occurs seg (seg post).
Proof. exists [], post. reflexivity. Qed.

Lemma occurs_cons seg e l : occurs seg l -> occurs seg (e :: l).
Proof. intros (pre & post & ->). exists (e :: pre), post. reflexivity. Qed.

Lemma occurs_app seg m l : occurs seg l -> occurs seg (m ++ l).
Proof.
  intros (pre & post & ->). exists (m ++ pre), post. rewrite app_assoc. reflexivity.
Qed.

Lemma forall_nil {A : Type} (P : A -> Prop) : forall y, In y (@nil A) -> P y.
Proof. intros y []. Qed.

Lemma forall_cons {A : Type} (P : A -> Prop) x l :
  P x -> (forall y, In y l -> P y) -> forall y, In y (x :: l) -> P y.
Proof. intros Hx Hl y [<-|H]; auto. Qed.


(** ** From the shape of a run to the two disciplines *)

Lemma plain_not_failed body : forallb is_plain body = true -> ~ failed_query body.
Proof.
  intros Hp [sql H]. apply (plain_in _ _ Hp) in H. discriminate H.
Qed.

Lemma plain_no_close body : forallb is_plain body = true -> ~ In EvClose body.
Proof. intros Hp H. apply (plain_in _ _ Hp) in H. discriminate H. Qed.

Lemma plain_no_connect body : forallb is_plain body = true -> ~ In EvConnect body.
Proof. intros Hp H. apply (plain_in _ _ Hp) in H. discriminate H. Qed.

(** What [script_ok] says, unfolded: the events and the result of the
    run. *)
Lemma script_ok_cases o :
  script_ok o ->
  exists body, forallb is_plain body = true /\
    ((out_events o = EvConnect :: body ++ [EvClose] /\ out_result o = inr tt)
     \/ (exists q e, out_events o = EvConnect :: body ++ [EvExecute q false]
                     /\ out_result o = inl (DatabaseError e))).
Proof.
  intros (rest & Hev & Hshape).
  destruct (tail_shape rest) as [[|]|] eqn:Ht; [| |contradiction];
    destruct (tail_shape_spec _ _ Ht) as (body & Hp & Hb); exists body; split; auto.
  - left. subst rest. auto.
  - right. destruct Hb as [q ->]. destruct Hshape as [e He]. exists q, e. auto.
Qed.

Lemma script_ok_aborts o : script_ok o -> aborts_on_failure o.
Proof.
  intro H. destruct (script_ok_cases o H) as (body & Hp & [[Hev Hr] | (q & e & Hev & Hr)]);
    unfold aborts_on_failure, exit_status; rewrite Hev, Hr.
  - assert (Hnf : ~ failed_query (EvConnect :: body ++ [EvClose])).
    { intros [sql [Hc|Hc]]; [discriminate Hc|].
      apply in_app_or in Hc. destruct Hc as [Hc|[Hc|[]]]; [|discriminate Hc].
      apply (plain_not_failed body Hp). exists sql. exact Hc. }
    split; [|split; [|split]].
    + intros pre sql post E. exfalso. apply Hnf. exists sql. rewrite E.
      apply in_or_app. right. left. reflexivity.
    + intro Hf. contradiction.
    + split; reflexivity.
    + intros _. exact Hnf.
  - split; [|split; [|split]].
    + intros pre sql post E.
      change (EvConnect :: body ++ [EvExecute q false])
        with ((EvConnect :: body) ++ [EvExecute q false]) in E.
      apply split_at_last in E; [tauto|].
      intros [Hc|Hc]; [discriminate Hc|]. apply (plain_in _ _ Hp) in Hc. discriminate Hc.
    + intros _. split; [exists e; reflexivity|discriminate].
    + split; intro Hx; discriminate Hx.
    + intro Hx. discriminate Hx.
Qed.

Lemma script_ok_connection o : script_ok o -> connection_discipline o.
Proof.
  intro H. destruct (script_ok_cases o H) as (body & Hp & [[Hev Hr] | (q & e & Hev & Hr)]);
    unfold connection_discipline; rewrite Hev, Hr.
  - assert (Hnf : ~ failed_query (EvConnect :: body ++ [EvClose])).
    { intros [sql [Hc|Hc]]; [discriminate Hc|].
      apply in_app_or in Hc. destruct Hc as [Hc|[Hc|[]]]; [|discriminate Hc].
      apply (plain_not_failed body Hp). exists sql. exact Hc. }
    split; [|split; [|split]].
    + intros pre post E. destruct pre as [|p pre]; cbn [app] in E.
      * injection E as <-. split; [reflexivity|].
        intro Hc. apply in_app_or in Hc. destruct Hc as [Hc|[Hc|[]]]; [|discriminate Hc].
        exact (plain_no_connect body Hp Hc).
      * exfalso. injection E as _ E.
        assert (Hc : In EvConnect (body ++ [EvClose])).
        { rewrite E. apply in_or_app. right. left. reflexivity. }
        apply in_app_or in Hc. destruct Hc as [Hc|[Hc|[]]]; [|discriminate Hc].
        exact (plain_no_connect body Hp Hc).
    + intros _. exists body. split; [reflexivity|]. split; [|exact Hnf].
      exact (plain_no_close body Hp).
    + intro Hf. contradiction.
    + split; [|reflexivity]. intros _. right. apply in_or_app. right. left. reflexivity.
  - assert (Hnc : ~ In EvClose (EvConnect :: body ++ [EvExecute q false])).
    { intros [Hc|Hc]; [discriminate Hc|].
      apply in_app_or in Hc. destruct Hc as [Hc|[Hc|[]]]; [|discriminate Hc].
      exact (plain_no_close body Hp Hc). }
    split; [|split; [|split]].
    + intros pre post E. destruct pre as [|p pre]; cbn [app] in E.
      * injection E as <-. split; [reflexivity|].
        intro Hc. apply in_app_or in Hc. destruct Hc as [Hc|[Hc|[]]]; [|discriminate Hc].
        exact (plain_no_connect body Hp Hc).
      * exfalso. injection E as _ E.
        assert (Hc : In EvConnect (body ++ [EvExecute q false])).
        { rewrite E. apply in_or_app. right. left. reflexivity. }
        apply in_app_or in Hc. destruct Hc as [Hc|[Hc|[]]]; [|discriminate Hc].
        exact (plain_no_connect body Hp Hc).
    + intro Hc. contradiction.
    + intros _. split; [left; reflexivity|exact Hnc].
    + split; [intro Hx; discriminate Hx|intro Hc; contradiction].
Qed.

(** A run that stops in [connect]: nothing happened. *)
Lemma unopened_aborts (o : outcome unit) e :
  out_events o = [] -> out_result o = inl e -> aborts_on_failure o.
Proof.
  intros Hev Hr. unfold aborts_on_failure, exit_status. rewrite Hev, Hr.
  split; [|split; [|split]].
  - intros pre sql post E. destruct pre; discriminate E.
  - intros [sql []].
  - split; intro Hx; discriminate Hx.
  - intro Hx. discriminate Hx.
Qed.

Lemma unopened_connection (o : outcome unit) e :
  out_events o = [] -> out_result o = inl e -> connection_discipline o.
Proof.
  intros Hev Hr. unfold connection_discipline. rewrite Hev, Hr.
  split; [|split; [|split]].
  - intros pre post E. destruct pre; discriminate E.
  - intros [].
  - intros [sql []].
  - split; [intro Hx; discriminate Hx|intros []].
Qed.

(* ================================================================== *)
(** * Running the report symbolically *)
(* ================================================================== *)

(** The report is run on an arbitrary database by unfolding the Python
    layer and splitting on what the database decides: whether a table
    exists, whether a column exists, whether a count is positive.  Each
    branch ends in one explicit outcome. *)

Ltac head_scrut t :=
  lazymatch t with
  | match ?x with _ => _ end => head_scrut x
  | ?f _ =>
      lazymatch f with
      | match ?x with _ => _ end => head_scrut x
      | _ => t
      end
  | _ => t
  end.

Ltac py_norm H :=
  lazy beta iota zeta delta
    [bind ret raise emit print connect close cursor_execute fetchone fetchall
     description_names getitem getitem_opt gt0 truthy
     cur_pending cur_description fresh_cursor
     rs_rows rs_description
     with_table with_column with_columns count_of grouped count_where
     count_result bind_names] in H;
  cbn [nth_error map] in H.

Ltac py_body :=
  lazy beta iota zeta delta [nth_error app fst snd].

Ltac sym_step H :=
  lazymatch type of H with
  | _ = ?t =>
      let h := head_scrut t in
      lazymatch h with
      | find_relation _ _ => destruct h eqn:?; py_norm H
      | column_index _ _ => destruct h eqn:?; py_norm H
      | Z.ltb _ _ => destruct h eqn:?; py_norm H
      | for_each (map _ _) _ _ =>
          let E := fresh "E" in
          eassert (E : h = _);
          [ eapply for_each_rows; intros; py_body; reflexivity
          | rewrite E in H; clear E; py_norm H ]
      | map _ (firstn 1 ?rows) =>
          let r := fresh "r" in
          destruct (firstn 1 rows) as [|r ?] eqn:?; cbn [map] in H;
          [ py_norm H
          | lazymatch type of H with
            | context [map (fun i => cell i r) (seq 0 (List.length ?cols))] =>
                let vals := fresh "vals" in
                let Hv := fresh "Hvals" in
                let Hl := fresh "Hlen" in
                remember (map (fun i => cell i r) (seq 0 (List.length cols)))
                  as vals eqn:Hv in H;
                assert (Hl : List.length vals = List.length (map col_name cols))
                  by (rewrite Hv, !length_map, length_seq; reflexivity);
                py_norm H
            end ]
      | for_each (enumerate _) _ _ =>
          let E := fresh "E" in
          eassert (E : h = _);
          [ eapply for_each_indexed;
            [ eassumption
            | let Hn := fresh in
              intros ? ? ? ? Hn; cbn [fst snd]; rewrite Hn; py_body; reflexivity ]
          | rewrite E in H; clear E; py_norm H ]
      | _ => is_var h; destruct h; py_norm H
      end
  end.

Ltac is_leaf H :=
  lazymatch type of H with
  | _ = mk_outcome _ _ _ => idtac
  end.

Ltac explore H leaf :=
  first [ is_leaf H; leaf | sym_step H; explore H leaf ].

Ltac start_report H :=
  unfold run, analyze_database in H;
  py_norm H;
  rewrite ?exec_not_a_db, ?exec_count_files, ?exec_count_pois, ?exec_count_relationships,
    ?exec_count_evidence, ?exec_count_outbox, ?exec_sample_files, ?exec_sample_pois,
    ?exec_pois_by_type, ?exec_rels_by_type, ?exec_rels_by_status, ?exec_outbox_groups,
    ?exec_validated, ?exec_empty_names, ?exec_empty_types, ?exec_first_poi in H;
  py_norm H.

Ltac norm_events :=
  cbn [out_events out_result out_cursor];
  rewrite <- ?app_assoc; cbn [app].

Ltac norm_events_in H :=
  cbn [out_events out_result out_cursor] in H;
  rewrite <- ?app_assoc in H; cbn [app] in H.

Ltac shape_leaf H :=
  subst; norm_events; eexists; split; [reflexivity|];
  cbn [tail_shape out_result];
  repeat (rewrite tail_shape_app by apply plain_prints; cbn [tail_shape]);
  try reflexivity; try (eexists; reflexivity).

Ltac fold_text H :=
  change "SELECT COUNT(*) FROM files" with q_count_files in H;
  change "SELECT file_path, status FROM files LIMIT 5" with q_sample_files in H;
  change "SELECT COUNT(*) FROM pois" with q_count_pois in H;
  change "SELECT type, COUNT(*) FROM pois GROUP BY type" with q_pois_by_type in H;
  change "SELECT file_path, name, type, start_line, end_line FROM pois LIMIT 5"
    with q_sample_pois in H;
  change "SELECT COUNT(*) FROM relationships" with q_count_rels in H;
  change "SELECT type, COUNT(*) FROM relationships GROUP BY type"
    with q_rels_by_type in H;
  change "SELECT status, COUNT(*) FROM relationships GROUP BY status"
    with q_rels_by_status in H;
  change "SELECT COUNT(*) FROM relationships WHERE status = 'validated'"
    with q_validated in H;
  change "SELECT COUNT(*) FROM relationship_evidence" with q_count_evidence in H;
  change "SELECT COUNT(*) FROM transactional_outbox" with q_count_outbox in H;
  change "SELECT event_type, processed, COUNT(*) FROM transactional_outbox GROUP BY event_type, processed"
    with q_outbox_groups in H;
  change "SELECT COUNT(*) FROM pois WHERE name IS NULL OR name = ''"
    with q_empty_names in H;
  change "SELECT COUNT(*) FROM pois WHERE type IS NULL OR type = ''"
    with q_empty_types in H;
  change "SELECT * FROM pois LIMIT 1" with q_first_poi in H;
  change "=== DATABASE ANALYSIS ===" with l_banner in H;
  change "Files processed: " with l_files in H;
  change "Sample files:" with l_sample_files in H;
  change "POIs extracted: " with l_pois in H;
  change "POI types:" with l_poi_types in H;
  change "Sample POIs:" with l_sample_pois in H;
  change ") | Lines " with l_lines in H;
  change "Relationships discovered: " with l_rels in H;
  change "Relationship types:" with l_rel_types in H;
  change "Relationship statuses:" with l_rel_statuses in H;
  change "Validated relationships: " with l_validated in H;
  change "Relationship evidence entries: " with l_evidence in H;
  change "Transactional outbox entries: " with l_outbox in H;
  change "Outbox status:" with l_outbox_status in H;
  change " [processed=" with l_processed in H;
  change "POIs with empty names: " with l_empty_names in H;
  change "POIs with empty types: " with l_empty_types in H;
  change "Sample POI full data:" with l_full_data in H.

Ltac explore_report H :=
  start_report H; fold_text H; explore H idtac.

Lemma report_script_ok db : db <> Unopenable -> script_ok (run (analyze_database db)).
Proof.
  intro Hdb.
  remember (run (analyze_database db)) as o eqn:Ho.
  destruct db as [|s|]; [| |contradiction]; explore_report Ho; shape_leaf Ho.
Qed.

Ltac find_occurrence :=
  first [ refine (occurs_here _ _)
        | refine (occurs_cons _ _ _ _); find_occurrence
        | refine (occurs_app _ _ _ _); find_occurrence ].

Ltac log_norm H :=
  unfold query_log in H;
  cbn [flat_map log_entry app] in H;
  repeat (rewrite query_log_prints in H; cbn [flat_map log_entry app] in H).

Ltac not_logged H :=
  apply in_query_log, in_logged in H;
  log_norm H;
  vm_compute in H; discriminate H.


Ltac same_table :=
  repeat match goal with
         | Hf : Some _ = Some _ |- _ => injection Hf as Hf; try subst
         | Hf : None = Some _ |- _ => discriminate Hf
         end.


Ltac find_in :=
  first [ left; reflexivity
        | right; find_in
        | apply in_or_app; right; find_in ].




(* ================================================================== *)
(** * The table lister, statement by statement *)
(* ================================================================== *)

Lemma inspect_spec s name c :
  inspected s name c (inspect (Database s) [VText name] c).
Proof.
  unfold inspect.
  rewrite (bind_ok _ _ c [] c (VText name)) by reflexivity.
  rewrite (bind_ok _ _ c [EvPrint (nl ++ name ++ " structure:")%string] c tt) by reflexivity.
  change (py_str (VText name)) with name.
  change ("PRAGMA table_info(" ++ name ++ ")")%string with (pragma_query name).
  change ("SELECT COUNT(*) FROM " ++ name)%string with (count_query name).
  destruct (execute (Database s) (pragma_query name)) as [e|rs] eqn:Ep.
  - rewrite (bind_err _ _ c [EvExecute (pragma_query name) false] c (DatabaseError e))
      by (unfold cursor_execute; rewrite Ep; reflexivity).
    unfold push; cbn [out_events out_cursor out_result app].
    apply inspected_pragma_fails. exact Ep.
  - destruct (exec_pragma s name rs Ep) as (w & Ht & Hr & ->).
    rewrite (bind_ok _ _ c [EvExecute (pragma_query name) true]
               (mk_cursor (Some table_info_description)
                          (rs_rows (run_table_info s w))) tt)
      by (unfold cursor_execute; rewrite Ep;
          unfold run_table_info; destruct (find_relation s w); reflexivity).
    rewrite table_info_rows.
    rewrite (bind_ok _ _ _ [] (mk_cursor (Some table_info_description) [])
               (map table_info_row (info_columns s w))) by reflexivity.
    rewrite (bind_ok _ _ _ (map (fun ic => EvPrint (column_line ic)) (info_columns s w))
               (mk_cursor (Some table_info_description) []) tt)
      by (apply for_each_rows; intros; reflexivity).
    pose proof (exec_count_name s name w Ht Hr) as Ec.
    unfold count_of, with_table in Ec.
    destruct (find_relation s w) as [t|] eqn:Ef.
    + rewrite (bind_ok _ _ _ [EvExecute (count_query name) true]
                 (mk_cursor (Some ["COUNT(*)"])
                            [[VInt (Z.of_nat (List.length (tbl_rows t)))]]) tt)
        by (unfold cursor_execute; rewrite Ec; reflexivity).
      unfold push; cbn [out_events out_cursor out_result app].
      apply (inspected_ok s name c w t); assumption.
    + rewrite (bind_err _ _ _ [EvExecute (count_query name) false]
                 (mk_cursor (Some table_info_description) []) (DatabaseError (NoSuchTable w)))
        by (unfold cursor_execute; rewrite Ec; reflexivity).
      unfold push; cbn [out_events out_cursor out_result app].
      apply (inspected_count_fails s name c w); assumption.
Qed.

Lemma inspected_partial_ok s name c o :
  inspected s name c o -> partial_ok [name] o.
Proof.
  intros [e Ep | w e Ep Ec | w t Ep Ef Ec]; split; cbn [out_events out_result].
  - intros q ok [H|[H|[]]]; [discriminate|]. inversion H; subst.
    exists name. cbn. auto.
  - exists e, [EvPrint (nl ++ name ++ " structure:")%string], (pragma_query name). auto.
  - intros q ok [H|[H|H]]; [discriminate| |].
    + inversion H; subst. exists name. cbn. auto.
    + apply in_app_or in H. destruct H as [H|[H|[]]]; [apply in_prints in H; tauto|].
      inversion H; subst. exists name. cbn. auto.
  - exists e, (EvPrint (nl ++ name ++ " structure:")%string
               :: EvExecute (pragma_query name) true
               :: map (fun ic => EvPrint (column_line ic)) (info_columns s w)),
      (count_query name).
    repeat split. cbn. apply plain_prints.
  - intros q ok [H|[H|H]]; [discriminate| |].
    + inversion H; subst. exists name. cbn. auto.
    + apply in_app_or in H. destruct H as [H|[H|[H|[]]]];
        [apply in_prints in H; tauto| |discriminate].
      inversion H; subst. exists name. cbn. auto.
  - cbn. rewrite forallb_app, plain_prints. reflexivity.
Qed.

Lemma inspect_loop s names c :
  partial_ok names
    (for_each (map (fun n => [VText n]) names) (inspect (Database s)) c).
Proof.
  revert c. induction names as [|name names IH]; intro c; cbn [map for_each].
  - split; cbn; [tauto|reflexivity].
  - pose proof (inspect_spec s name c) as Hi.
    pose proof (inspected_partial_ok _ _ _ _ Hi) as [Hq Hr].
    destruct (inspect (Database s) [VText name] c) as [evs c' [x|[]]] eqn:E.
    + rewrite (bind_err _ _ _ _ _ _ E). split; cbn [out_events out_result] in *.
      * intros q ok H. destruct (Hq q ok H) as (n & [<-|[]] & Hn).
        exists name. cbn. auto.
      * exact Hr.
    + rewrite (bind_ok _ _ _ _ _ _ E). specialize (IH c').
      destruct IH as [IHq IHr]. unfold push. split; cbn [out_events out_result] in *.
      * intros q ok H. apply in_app_or in H. destruct H as [H|H].
        -- destruct (Hq q ok H) as (n & [<-|[]] & Hn). exists name. cbn. auto.
        -- destruct (IHq q ok H) as (n & Hin & Hn). exists n. cbn. auto.
      * destruct (out_result (for_each _ _ c')) as [x|u].
        -- destruct IHr as (e & pre & q & -> & -> & Hp).
           exists e, (evs ++ pre), q. rewrite app_assoc, forallb_app, Hr, Hp. auto.
        -- rewrite forallb_app, Hr, IHr. reflexivity.
Qed.

(** The whole of [check_tables] on a readable database: the listing, then
    the inspection loop, then [close] if the loop came through. *)
Lemma check_tables_run s :
  run (check_tables (Database s)) =
  push (EvConnect :: EvExecute master_query true :: EvPrint "Tables in database:"
        :: map (fun n => EvPrint ("  - " ++ n)%string) (table_names s))
       (bind (for_each (map (fun n => [VText n]) (table_names s)) (inspect (Database s)))
             (fun _ => close)
             (mk_cursor (Some ["name"]) [])).
Proof.
  unfold run, check_tables.
  rewrite (bind_ok _ _ _ [EvConnect] fresh_cursor (Database s)) by reflexivity.
  rewrite (bind_ok _ _ _ [EvExecute master_query true]
             (mk_cursor (Some ["name"])
                (map (fun n => [VText n]) (table_names s))) tt)
    by (unfold cursor_execute; rewrite exec_master; unfold table_names;
        rewrite map_map; reflexivity).
  rewrite (bind_ok _ _ _ [] (mk_cursor (Some ["name"]) [])
             (map (fun n => [VText n]) (table_names s))) by reflexivity.
  rewrite (bind_ok _ _ _ [EvPrint "Tables in database:"] (mk_cursor (Some ["name"]) []) tt)
    by reflexivity.
  rewrite (bind_ok _ _ _ (map (fun n => EvPrint ("  - " ++ n)%string) (table_names s))
             (mk_cursor (Some ["name"]) []) tt)
    by (apply for_each_rows; intros; reflexivity).
  unfold push; cbn [out_events out_cursor out_result app].
  reflexivity.
Qed.

Lemma tables_script_ok db : db <> Unopenable -> script_ok (run (check_tables db)).
Proof.
  intro Hdb. destruct db as [|s|]; [| |contradiction].
  - exists [EvExecute master_query false]. split; [reflexivity|]. cbn. eauto.
  - rewrite check_tables_run.
    pose proof (inspect_loop s (table_names s) (mk_cursor (Some ["name"]) [])) as [_ Hr].
    destruct (for_each _ _ _) as [evs c' [x|[]]] eqn:E; cbn [out_result out_events] in Hr.
    + rewrite (bind_err _ _ _ _ _ _ E).
      destruct Hr as (e & pre & q & -> & -> & Hp).
      unfold push; cbn [out_events out_cursor out_result app].
      eexists. split; [reflexivity|].
      cbn [tail_shape].
      rewrite tail_shape_app by apply plain_prints.
      rewrite tail_shape_app by exact Hp. cbn. eauto.
    + rewrite (bind_ok _ _ _ _ _ _ E).
      unfold push, close, emit; cbn [out_events out_cursor out_result app].
      eexists. split; [reflexivity|].
      cbn [tail_shape].
      rewrite tail_shape_app by apply plain_prints.
      rewrite tail_shape_app by exact Hr. reflexivity.
Qed.

(* ================================================================== *)
(** * Failure and the connection *)
(* ================================================================== *)

(** C7, as amended: in either script a failed statement is the last event
    of the run (no later statement, no later output) and the run then ends
    with the driver's exception and a non-zero exit status; the exit status
    is 0 exactly when the script runs to its end, and then no statement has
    failed. *)
Theorem C7_query_failure_aborts (db : db_file) :
  aborts_on_failure (run (analyze_database db))
  /\ aborts_on_failure (run (check_tables db)).
Proof.
  destruct db as [|s|]; split;
    first [ apply script_ok_aborts;
            first [apply report_script_ok | apply tables_script_ok]; discriminate
          | apply (unopened_aborts _ (DatabaseError CantOpen)); reflexivity ].
Qed.

(** C7, as the claim has it, fails: on a path that cannot be opened no
    statement fails (none is sent), and yet both scripts end with a
    non-zero exit status. *)
Lemma C7_exit_status_without_failed_query :
  (~ failed_query (out_events (run (analyze_database Unopenable)))
   /\ exit_status (run (analyze_database Unopenable)) <> 0%Z)
  /\ (~ failed_query (out_events (run (check_tables Unopenable)))
      /\ exit_status (run (check_tables Unopenable)) <> 0%Z).
Proof.
  split; split; try (intros [sql []]); discriminate.
Qed.

(** C8, as amended: in either script the connection is opened before
    anything else and once; when it is closed it is closed once, as the last
    event, and no statement has failed; after a failed statement it is
    never closed; and the script returns exactly when it has closed the
    connection. *)
Theorem C8_connection_closed_iff_no_failure (db : db_file) :
  connection_discipline (run (analyze_database db))
  /\ connection_discipline (run (check_tables db)).
Proof.
  destruct db as [|s|]; split;
    first [ apply script_ok_connection;
            first [apply report_script_ok | apply tables_script_ok]; discriminate
          | apply (unopened_connection _ (DatabaseError CantOpen)); reflexivity ].
Qed.

(** C8, as the claim has it, fails: on a path that cannot be opened every
    statement succeeds (none is sent), and yet the connection is neither
    acquired nor closed. *)
Lemma C8_unopened_connection_never_closed :
  (~ failed_query (out_events (run (analyze_database Unopenable)))
   /\ ~ In EvConnect (out_events (run (analyze_database Unopenable)))
   /\ ~ In EvClose (out_events (run (analyze_database Unopenable))))
  /\ (~ failed_query (out_events (run (check_tables Unopenable)))
      /\ ~ In EvConnect (out_events (run (check_tables Unopenable)))
      /\ ~ In EvClose (out_events (run (check_tables Unopenable)))).
Proof.
  split; (split; [intros [sql []]|split; intros []]).
Qed.

(* ================================================================== *)
(** * The guards of the report *)
(* ================================================================== *)





Ltac split_in H :=
  cbn [In] in H;
  repeat (destruct H as [<-|H]); try contradiction.





(* ================================================================== *)
(** * The report on an empty database *)
(* ================================================================== *)

Lemma empty_schema_empty : all_tables_empty empty_schema.
Proof.
  intros name H.
  repeat (destruct H as [<-|H];
          [eexists; split; [vm_compute; reflexivity|reflexivity]|]).
  destruct H.
Qed.

(** C2, as amended: on a database whose five tables exist and are empty
    the report runs to its end without an error (exit status 0) and does
    exactly this: it prints the banner, sends the five COUNT statements,
    prints each total as 0 and the separators, and closes the connection.
    No detail block is printed, and the empty-name and empty-type counts
    are neither queried nor printed. *)
Theorem C2_empty_database_report (s : list object) :
  all_tables_empty s ->
  out_events (run (analyze_database (Database s))) = empty_report
  /\ out_result (run (analyze_database (Database s))) = inr tt
  /\ exit_status (run (analyze_database (Database s))) = 0%Z.
Proof.
  intros Hall.
  destruct (Hall "files") as (t1 & Hf1 & Hr1); [cbn; tauto|].
  destruct (Hall "pois") as (t2 & Hf2 & Hr2); [cbn; tauto|].
  destruct (Hall "relationships") as (t3 & Hf3 & Hr3); [cbn; tauto|].
  destruct (Hall "relationship_evidence") as (t4 & Hf4 & Hr4); [cbn; tauto|].
  destruct (Hall "transactional_outbox") as (t5 & Hf5 & Hr5); [cbn; tauto|].
  unfold exit_status.
  remember (run (analyze_database (Database s))) as o eqn:Ho.
  start_report Ho.
  rewrite Hf1, Hf2, Hf3, Hf4, Hf5, Hr1, Hr2, Hr3, Hr4, Hr5 in Ho.
  change (0 <? Z.of_nat (List.length (@nil row)))%Z with false in Ho.
  py_norm Ho. subst o. repeat split.
Qed.

Lemma C2_empty_database_report_witness :
  out_events (run (analyze_database (Database empty_schema))) = empty_report
  /\ out_result (run (analyze_database (Database empty_schema))) = inr tt
  /\ exit_status (run (analyze_database (Database empty_schema))) = 0%Z.
Proof. apply (C2_empty_database_report empty_schema). exact empty_schema_empty. Defined.

(** C2, as the claim has it, fails: on the empty example database the
    report completes, but the two data-quality statements are never sent
    and no line with an empty-name or empty-type count is printed. *)
Lemma C2_quality_counts_not_reported :
  all_tables_empty empty_schema
  /\ out_result (run (analyze_database (Database empty_schema))) = inr tt
  /\ (forall ok, ~ In (EvExecute q_empty_names ok)
                      (out_events (run (analyze_database (Database empty_schema)))))
  /\ (forall ok, ~ In (EvExecute q_empty_types ok)
                      (out_events (run (analyze_database (Database empty_schema)))))
  /\ (forall line,
        In (EvPrint line) (out_events (run (analyze_database (Database empty_schema)))) ->
        String.prefix "POIs with empty names: " line = false
        /\ String.prefix "POIs with empty types: " line = false).
Proof.
  split; [exact empty_schema_empty|].
  split; [vm_compute; reflexivity|].
  split; [|split].
  - intros ok H. apply in_query_log, in_attempted in H.
    vm_compute in H. discriminate H.
  - intros ok H. apply in_query_log, in_attempted in H.
    vm_compute in H. discriminate H.
  - intros line H. apply in_print_log in H. revert line H.
    replace (flat_map print_entry
               (out_events (run (analyze_database (Database empty_schema)))))
      with (flat_map print_entry empty_report) by (vm_compute; reflexivity).
    cbn [flat_map print_entry empty_report app].
    repeat (apply forall_cons; [split; vm_compute; reflexivity|]).
    apply forall_nil.
Qed.

(* ================================================================== *)
(** * Grouped breakdowns *)
(* ================================================================== *)

Ltac sync_table Hf :=
  lazymatch type of Hf with
  | find_relation ?s ?n = _ =>
      match goal with
      | Hx : find_relation s n = Some _ |- _ =>
          lazymatch Hx with
          | Hf => fail
          | _ => rewrite Hx in Hf; injection Hf as Hf; subst
          end
      end
  end.


Ltac among_events := vm_compute; repeat (first [left; reflexivity | right]).


(* ================================================================== *)
(** * Sample listings and data quality *)
(* ================================================================== *)






(** C4, as amended: when the pois table has rows and the data-quality
    statements have been executed, the empty-name count the report prints
    is the number of rows whose name is NULL or equal to the empty string
    under the collating sequence of the name column, and likewise for the
    type; when neither column is declared COLLATE RTRIM these are the rows
    whose name (type) is NULL or the empty string. *)
Theorem C4_empty_field_counts (s : list object) (t : table) :
  find_relation s "pois" = Some t ->
  tbl_rows t <> [] ->
  In (EvExecute q_empty_types true)
     (out_events (run (analyze_database (Database s)))) ->
  exists i_name i_type,
    column_index (tbl_columns t) "name" = Some i_name
    /\ column_index (tbl_columns t) "type" = Some i_type
    /\ occurs (quality_report t i_name i_type)
              (out_events (run (analyze_database (Database s))))
    /\ (column_collation t "name" i_name <> RTrim ->
        column_collation t "type" i_type <> RTrim ->
        occurs (quality_lines t i_name i_type)
               (out_events (run (analyze_database (Database s))))).
Proof.
  intros Hf Hrows Hq.
  remember (run (analyze_database (Database s))) as o eqn:Ho.
  explore_report Ho.
  all: norm_events_in Ho; subst o; cbn [out_events] in *.
  all: try (exfalso; not_logged Hq).
  all: same_table.
  all: do 2 eexists; split; [eassumption|]; split; [eassumption|].
  all: split;
       [ unfold quality_report; rewrite !count_empty; find_occurrence
       | let Hn := fresh "Hn" in let Ht := fresh "Ht" in
         intros Hn Ht; unfold quality_lines;
         rewrite <- (count_empty_plain _ _ _ Hn), <- (count_empty_plain _ _ _ Ht),
           !count_empty;
         find_occurrence ].
Qed.

Lemma C4_empty_field_counts_witness :
  exists i_name i_type,
    column_index (tbl_columns demo_pois) "name" = Some i_name
    /\ column_index (tbl_columns demo_pois) "type" = Some i_type
    /\ occurs (quality_report demo_pois i_name i_type)
              (out_events (run (analyze_database (Database demo_schema))))
    /\ (column_collation demo_pois "name" i_name <> RTrim ->
        column_collation demo_pois "type" i_type <> RTrim ->
        occurs (quality_lines demo_pois i_name i_type)
               (out_events (run (analyze_database (Database demo_schema))))).
Proof.
  apply (C4_empty_field_counts demo_schema demo_pois).
  - reflexivity.
  - discriminate.
  - among_events.
Defined.

(** C4, as the claim has it, fails: with the name column declared COLLATE
    RTRIM and one row whose name is three spaces, no row has a NULL or
    empty name, and yet the report prints an empty-name count of 1. *)
Lemma C4_rtrim_names_counted :
  find_relation rtrim_schema "pois" = Some rtrim_pois
  /\ tbl_rows rtrim_pois <> []
  /\ count_rows (fun r => empty_or_null (cell 2 r)) (tbl_rows rtrim_pois) = 0%Z
  /\ In (EvPrint "POIs with empty names: 1")
        (out_events (run (analyze_database (Database rtrim_schema)))).
Proof.
  split; [reflexivity|]. split; [discriminate|]. split; [reflexivity|].
  among_events.
Qed.

(* ================================================================== *)
(** * The report on the schema it expects *)
(* ================================================================== *)

Ltac no_failure H :=
  apply in_query_log in H; log_norm H; cbn [In] in H;
  repeat (destruct H as [H|H]; [discriminate H|]); exact H.

(** On a database with the five tables and the columns the report names,
    no statement of the report fails and the report returns. *)
Lemma expected_schema_runs_clean (s : list object) :
  expected_schema s ->
  out_result (run (analyze_database (Database s))) = inr tt
  /\ ~ failed_query (out_events (run (analyze_database (Database s)))).
Proof.
  intros ((t1 & Hf1 & Hc1) & (t2 & Hf2 & Hc2) & (t3 & Hf3 & Hc3)
          & (t4 & Hf4 & _) & (t5 & Hf5 & Hc5)).
  remember (run (analyze_database (Database s))) as o eqn:Ho.
  start_report Ho.
  rewrite Hf1, Hf2, Hf3, Hf4, Hf5 in Ho. py_norm Ho. fold_text Ho.
  explore Ho idtac.
  all: try (exfalso;
            repeat match goal with
                   | Hc : forall c, In c _ -> column_index _ c <> None |- _ =>
                       first [ eapply Hc; [|eassumption]; cbn [In]; tauto | clear Hc ]
                   end; fail).
  all: norm_events_in Ho; subst o; cbn [out_events out_result].
  all: split; [reflexivity|].
  all: let q := fresh "q" in let H := fresh "H" in intros [q H]; no_failure H.
Qed.

Ltac empty_table Hrows :=
  match goal with
  | Hz : (0 <? Z.of_nat (List.length ?r))%Z = false |- _ =>
      apply Hrows; apply Z.ltb_ge in Hz;
      destruct r; [reflexivity | cbn [List.length] in Hz; lia]
  end.







(* ================================================================== *)
(** * The table lister on names that need no quoting *)
(* ================================================================== *)

Lemma first_char_plain c :
  (is_upper c || is_lower c || Ascii.eqb c "_") = true ->
  is_digit c = false /\ Ascii.eqb c "$" = false /\ is_word_char c = true.
Proof.
  destruct c as [[] [] [] [] [] [] [] []]; vm_compute; intro H;
    try discriminate H; repeat split.
Qed.

Lemma plain_char_word d :
  (is_upper d || is_lower d || is_digit d || Ascii.eqb d "_") = true ->
  is_word_char d = true.
Proof. intro H. unfold is_word_char. rewrite H. reflexivity. Qed.

Lemma lex_run_word w a :
  forallb (fun d => is_upper d || is_lower d || is_digit d || Ascii.eqb d "_")
          (list_ascii_of_string a) = true ->
  lex_run (LWord w) a = ([], LWord (w ++ a)).
Proof.
  revert w. induction a as [|d a IH]; intros w H.
  - cbn. replace (w ++ "")%string with w; [reflexivity|].
    induction w as [|x w IHw]; cbn; [reflexivity|]. rewrite <- IHw. reflexivity.
  - cbn [list_ascii_of_string forallb] in H. apply andb_prop in H. destruct H as [Hd Ha].
    cbn [lex_run lex_step]. rewrite (plain_char_word d Hd). cbn [fst snd app].
    rewrite (IH _ Ha). cbn [fst snd]. do 2 f_equal.
    clear. induction w as [|x w IHw]; cbn; [reflexivity|]. rewrite IHw. reflexivity.
Qed.

(** The lexer reads a plain identifier as one word. *)
Lemma lex_run_plain name :
  plain_identifier name = true ->
  lex_run LIdle name = ([], LWord name) /\ word_token name = TWord name.
Proof.
  destruct name as [|c rest]; [discriminate|].
  cbn [plain_identifier]. intro H. apply andb_prop in H. destruct H as [Hc Hr].
  destruct (first_char_plain c Hc) as (Hd & Hs & Hw).
  split.
  - cbn [lex_run lex_step]. unfold idle_step. rewrite Hw. cbn [fst snd app].
    rewrite (lex_run_word _ _ Hr). reflexivity.
  - cbn [word_token]. rewrite Hd, Hs. reflexivity.
Qed.

Lemma tokens_plain name : plain_identifier name = true -> tokens name = [TWord name].
Proof.
  intro H. destruct (lex_run_plain name H) as [Hl Hw].
  unfold tokens. rewrite lex_end, Hl. cbn. rewrite Hw. reflexivity.
Qed.

Lemma exec_pragma_plain s name :
  plain_identifier name = true -> reserved name = false ->
  execute (Database s) (pragma_query name) = inr (run_table_info s name).
Proof.
  intros Hp Hr. destruct (lex_run_plain name Hp) as [Hl Hw].
  unfold execute, parse_sql. rewrite tokens_pragma, lex_app, Hl.
  cbn [fst snd app]. rewrite lex_close_paren. cbn [close_paren]. rewrite Hw.
  cbn [parse_stmt is_kw]. change (String.eqb (lower "PRAGMA") "select") with false.
  change (String.eqb (lower "PRAGMA") "pragma") with true. cbv iota.
  change (String.eqb (lower "table_info") "table_info") with true.
  cbn [andb at_end as_name]. rewrite Hr. reflexivity.
Qed.

(** Under distinct names a catalog entry is found under its own name. *)
Lemma find_own (s : list object) (o : object) :
  distinct (map (fun x => lower (obj_name x)) s) = true ->
  In o s -> is_relation o = true ->
  find (fun x => is_relation x && name_eqb (obj_name x) (obj_name o)) s = Some o.
Proof.
  induction s as [|x s IH]; intros Hd Hin Hrel; [destruct Hin|].
  cbn [map distinct] in Hd. apply andb_prop in Hd. destruct Hd as [Hx Hs].
  cbn [find]. destruct Hin as [->|Hin].
  - rewrite Hrel. unfold name_eqb. rewrite String.eqb_refl. reflexivity.
  - replace (name_eqb (obj_name x) (obj_name o)) with false.
    + rewrite andb_false_r. apply IH; assumption.
    + symmetry. unfold name_eqb. destruct (String.eqb _ _) eqn:E; [|reflexivity].
      exfalso. apply negb_true_iff in Hx.
      assert (Hex : existsb (String.eqb (lower (obj_name x)))
                      (map (fun x => lower (obj_name x)) s) = true).
      { apply existsb_exists. exists (lower (obj_name o)). split; [|exact E].
        apply in_map_iff. exists o. auto. }
      rewrite Hex in Hx. discriminate Hx.
Qed.

Lemma find_relation_own s o :
  valid_schema s = true -> In o s -> catalog_table o = true ->
  master_name (obj_name o) = false ->
  find_relation s (obj_name o) = Some (obj_data o).
Proof.
  intros Hv Hin Ht Hm. unfold valid_schema in Hv. apply andb_prop in Hv.
  destruct Hv as [_ Hd]. unfold find_relation.
  unfold master_name in Hm. rewrite Hm.
  rewrite (find_own s o Hd Hin); [reflexivity|].
  unfold is_relation. unfold catalog_table in Ht. rewrite Ht. reflexivity.
Qed.

(** One pass of the loop on a name that needs no quoting. *)
Lemma inspect_plain s name t c :
  plain_identifier name = true -> reserved name = false ->
  find_relation s name = Some t ->
  inspect (Database s) [VText name] c =
  mk_outcome (table_block name t) (mk_cursor (Some ["COUNT(*)"]) []) (inr tt).
Proof.
  intros Hp Hr Hf. unfold inspect.
  rewrite (bind_ok _ _ c [] c (VText name)) by reflexivity.
  rewrite (bind_ok _ _ c [EvPrint (nl ++ name ++ " structure:")%string] c tt) by reflexivity.
  change (py_str (VText name)) with name.
  change ("PRAGMA table_info(" ++ name ++ ")")%string with (pragma_query name).
  change ("SELECT COUNT(*) FROM " ++ name)%string with (count_query name).
  pose proof (exec_pragma_plain s name Hp Hr) as Ep.
  rewrite (bind_ok _ _ c [EvExecute (pragma_query name) true]
             (mk_cursor (Some table_info_description)
                        (rs_rows (run_table_info s name))) tt)
    by (unfold cursor_execute; rewrite Ep;
        unfold run_table_info; rewrite Hf; reflexivity).
  rewrite table_info_rows. unfold info_columns. rewrite Hf.
  rewrite (bind_ok _ _ _ [] (mk_cursor (Some table_info_description) [])
             (map table_info_row
                  (combine (seq 0 (List.length (tbl_columns t))) (tbl_columns t))))
    by reflexivity.
  rewrite (bind_ok _ _ _
             (map (fun ic => EvPrint (column_line ic))
                  (combine (seq 0 (List.length (tbl_columns t))) (tbl_columns t)))
             (mk_cursor (Some table_info_description) []) tt)
    by (apply for_each_rows; intros; reflexivity).
  pose proof (exec_count_name s name name (tokens_plain name Hp) Hr) as Ec.
  unfold count_of, with_table in Ec. rewrite Hf in Ec.
  rewrite (bind_ok _ _ _ [EvExecute (count_query name) true]
             (mk_cursor (Some ["COUNT(*)"])
                        [[VInt (Z.of_nat (List.length (tbl_rows t)))]]) tt)
    by (unfold cursor_execute; rewrite Ec; reflexivity).
  unfold push, table_block; cbn [out_events out_cursor out_result app].
  do 3 f_equal.
  assert (G : forall (cols : list column) k,
             map (fun ic => EvPrint (column_line ic))
                 (combine (seq k (List.length cols)) cols)
             = map (fun c => EvPrint ("  - " ++ col_name c ++ " " ++ col_type c)%string) cols).
  { induction cols as [|x cols IH]; intro k; cbn; [reflexivity|].
    rewrite IH. reflexivity. }
  rewrite G. reflexivity.
Qed.

Lemma inspect_all s (objs : list object) c :
  (forall o, In o objs ->
     plain_identifier (obj_name o) = true /\ reserved (obj_name o) = false
     /\ find_relation s (obj_name o) = Some (obj_data o)) ->
  exists c',
    for_each (map (fun n => [VText n]) (map obj_name objs)) (inspect (Database s)) c =
    mk_outcome (flat_map (fun o => table_block (obj_name o) (obj_data o)) objs)
               c' (inr tt).
Proof.
  revert c. induction objs as [|o objs IH]; intros c H; cbn [map for_each flat_map].
  - exists c. reflexivity.
  - destruct (H o (or_introl eq_refl)) as (Hp & Hr & Hf).
    rewrite (bind_ok _ _ _ _ _ _ (inspect_plain s _ _ c Hp Hr Hf)).
    destruct (IH (mk_cursor (Some ["COUNT(*)"]) [])) as [c' E].
    { intros x Hx. apply H. right. exact Hx. }
    rewrite E. exists c'. reflexivity.
Qed.

(** On a well-formed catalog whose table names need no quoting the lister
    lists exactly the catalog's tables, and for each its declared columns
    in schema order and the number of its stored rows, and returns. *)
Theorem lister_on_bare_names (s : list object) :
  valid_schema s = true ->
  (forall o, In o s -> catalog_table o = true -> bare_name (obj_name o) = true) ->
  out_events (run (check_tables (Database s))) = lister_report s
  /\ out_result (run (check_tables (Database s))) = inr tt.
Proof.
  intros Hv Hb. rewrite check_tables_run.
  unfold table_names. fold catalog_table.
  change (fun o : object => String.eqb (obj_type o) "table") with catalog_table.
  destruct (inspect_all s (filter catalog_table s) (mk_cursor (Some ["name"]) []))
    as [c' E].
  { intros o Ho. apply filter_In in Ho. destruct Ho as [Hin Ht].
    specialize (Hb o Hin Ht). unfold bare_name in Hb.
    apply andb_prop in Hb. destruct Hb as [Hb Hm].
    apply andb_prop in Hb. destruct Hb as [Hp Hr].
    apply negb_true_iff in Hr. apply negb_true_iff in Hm.
    repeat split; try assumption. apply find_relation_own; assumption. }
  rewrite (bind_ok _ _ _ _ _ _ E).
  unfold push, close, emit, lister_report; cbn [out_events out_cursor out_result app].
  rewrite map_map. split; reflexivity.
Qed.

Example lister_on_demo :
  out_events (run (check_tables (Database demo_schema))) = lister_report demo_schema
  /\ out_result (run (check_tables (Database demo_schema))) = inr tt.
Proof.
  apply lister_on_bare_names; [reflexivity|].
  intros o Ho _. repeat (destruct Ho as [<-|Ho]; [reflexivity|]). destruct Ho.
Defined.

(* ================================================================== *)
(** * The table lister and the names it pastes into SQL *)
(* ================================================================== *)

(** C10: every statement the lister sends is the catalog query or one of
    the two texts built by pasting a catalog name, as it is, into the
    PRAGMA or into the COUNT statement; and there is a
    well-formed database with a table whose name is not a plain identifier
    on which the PRAGMA for that table, which exists, is refused with a
    syntax error and ends the run. *)
Theorem C10_unquoted_name_breaks_lister :
  (forall db sql ok,
      In (EvExecute sql ok) (out_events (run (check_tables db))) ->
      lister_query db sql)
  /\ exists s name,
       valid_schema s = true
       /\ In name (table_names s)
       /\ plain_identifier name = false
       /\ out_result (run (check_tables (Database s)))
          = inl (DatabaseError SyntaxError)
       /\ In (EvExecute ("PRAGMA table_info(" ++ name ++ ")")%string false)
             (out_events (run (check_tables (Database s)))).
Proof.
  split.
  - intros [|s|] sql ok H; [| |destruct H].
    + cbn in H. destruct H as [H|[H|[]]]; [discriminate|]. inversion H. left. reflexivity.
    + rewrite check_tables_run in H.
      pose proof (inspect_loop s (table_names s) (mk_cursor (Some ["name"]) [])) as [Hq _].
      destruct (for_each _ _ _) as [evs c' [x|[]]] eqn:E; cbn [out_events] in Hq.
      * rewrite (bind_err _ _ _ _ _ _ E) in H.
        unfold push in H; cbn [out_events app] in H.
        destruct H as [H|[H|[H|H]]]; try discriminate.
        -- inversion H. left. reflexivity.
        -- apply in_app_or in H. destruct H as [H|H]; [apply in_prints in H; tauto|].
           right. exact (Hq sql ok H).
      * rewrite (bind_ok _ _ _ _ _ _ E) in H.
        unfold push, close, emit in H; cbn [out_events app] in H.
        destruct H as [H|[H|[H|H]]]; try discriminate.
        -- inversion H. left. reflexivity.
        -- apply in_app_or in H. destruct H as [H|H]; [apply in_prints in H; tauto|].
           apply in_app_or in H. destruct H as [H|[H|[]]]; [|discriminate].
           right. exact (Hq sql ok H).
  - exists spaced_schema, "my table".
    repeat split; try reflexivity.
    + left. reflexivity.
    + vm_compute. tauto.
Qed.

(** C6, at the failing input: on the well-formed database with the tables
    [my table] and [files] the lister prints both names, then stops at the
    PRAGMA for [my table] with a syntax error; it prints no column of
    either table, no row count, and never reaches [files]. *)
Theorem C6_lister_stops_at_spaced_name :
  valid_schema spaced_schema = true
  /\ table_names spaced_schema = ["my table"; "files"]
  /\ run (check_tables (Database spaced_schema)) =
     mk_outcome
       [ EvConnect;
         EvExecute "SELECT name FROM sqlite_master WHERE type='table';" true;
         EvPrint "Tables in database:";
         EvPrint "  - my table";
         EvPrint "  - files";
         EvPrint (nl ++ "my table structure:");
         EvExecute "PRAGMA table_info(my table)" false ]
       (mk_cursor (Some ["name"]) [])
       (inl (DatabaseError SyntaxError)).
Proof. repeat split; vm_compute; reflexivity. Qed.

(* ================================================================== *)
(** * What the report sends and the totals it prints *)
(* ================================================================== *)

Lemma is_subseq_in l r : is_subseq l r = true -> forall x, In x l -> In x r.
Proof.
  revert l. induction r as [|y r IH]; intros [|a l] H x Hx.
  - destruct Hx.
  - discriminate H.
  - destruct Hx.
  - cbn [is_subseq] in H. destruct (String.eqb a y) eqn:E.
    + apply String.eqb_eq in E. subst y. destruct Hx as [<-|Hx].
      * left. reflexivity.
      * right. exact (IH _ H x Hx).
    + right. exact (IH _ H x Hx).
Qed.

Lemma in_sent q ok evs : In (EvExecute q ok) evs -> In q (sent evs).
Proof.
  intro H. apply in_query_log in H. unfold sent.
  apply in_map_iff. exists (q, ok). auto.
Qed.

Lemma report_queries_select : forallb is_select report_queries = true.
Proof. vm_compute. reflexivity. Qed.

Ltac sent_norm :=
  unfold sent, query_log;
  cbn [flat_map log_entry app];
  repeat (rewrite query_log_prints; cbn [flat_map log_entry app]).

(** Whatever the file holds, the statements a run of the report sends
    are statements of the fixed list, in program order and each at most
    once; every one of them is a SELECT. *)
Theorem report_statements_in_order (db : db_file) :
  is_subseq (sent (out_events (run (analyze_database db)))) report_queries = true
  /\ forall q ok,
       In (EvExecute q ok) (out_events (run (analyze_database db))) ->
       In q report_queries /\ is_select q = true.
Proof.
  assert (G : is_subseq (sent (out_events (run (analyze_database db))))
                        report_queries = true).
  { remember (run (analyze_database db)) as o eqn:Ho.
    destruct db as [|s|]; explore_report Ho.
    all: norm_events_in Ho; subst o; cbn [out_events].
    all: sent_norm; vm_compute; reflexivity. }
  split; [exact G|].
  intros q ok H. apply in_sent in H.
  pose proof (is_subseq_in _ _ G q H) as Hin. split; [exact Hin|].
  pose proof report_queries_select as Hs. rewrite forallb_forall in Hs. auto.
Qed.

(** Each total the report prints is the number of rows of its table. *)
Theorem report_totals (s : list object) (T : table_report) (t : table) :
  In T report_tables ->
  find_relation s (tr_table T) = Some t ->
  In (EvExecute (tr_count_query T) true)
     (out_events (run (analyze_database (Database s)))) ->
  In (EvPrint (tr_label T ++ py_str (VInt (Z.of_nat (List.length (tbl_rows t))))))
     (out_events (run (analyze_database (Database s)))).
Proof.
  intros HT Hf Hq.
  remember (run (analyze_database (Database s))) as o eqn:Ho.
  explore_report Ho.
  all: norm_events_in Ho; subst o; cbn [out_events] in *.
  all: destruct HT as [<-|[<-|[<-|[<-|[<-|[]]]]]];
       cbn [tr_table tr_count_query tr_label files_report pois_report
            relationships_report evidence_report outbox_report] in *.
  all: try (exfalso; not_logged Hq).
  all: sync_table Hf.
  all: find_in.
Qed.

Lemma report_totals_witness :
  In (EvPrint (tr_label evidence_report
               ++ py_str (VInt (Z.of_nat (List.length (tbl_rows demo_evidence))))))
     (out_events (run (analyze_database (Database demo_schema)))).
Proof.
  apply (report_totals demo_schema evidence_report demo_evidence).
  - right; right; right; left; reflexivity.
  - reflexivity.
  - among_events.
Defined.

(* ================================================================== *)
(** * Validated relationships and the full dump *)
(* ================================================================== *)

Lemma holds_validated k v :
  holds (sql_eq k v (VText "validated")) = validated_under k v.
Proof.
  destruct v as [|z|x]; try reflexivity.
  unfold sql_eq, validated_under, holds. destruct (text_eqb k x "validated"); reflexivity.
Qed.

Lemma count_validated k i rows :
  count_rows (fun r => validated_under k (cell i r)) rows =
  Z.of_nat (List.length
              (filter (fun r => holds (sql_eq k (cell i r) (VText "validated"))) rows)).
Proof.
  unfold count_rows. do 2 f_equal. apply filter_ext. intro r.
  symmetry. apply holds_validated.
Qed.

Lemma count_rows_le p rows : (count_rows p rows <= Z.of_nat (List.length rows))%Z.
Proof. unfold count_rows. apply Nat2Z.inj_le, filter_length_le. Qed.

(** When the validated count has been queried, the number the report
    prints is the number of relationships whose status is a text that
    compares equal to [validated] under the collating sequence of the
    status column (a NULL or a number is never counted), and it is at most
    the table's total. *)
Theorem validated_count (s : list object) (t : table) :
  find_relation s "relationships" = Some t ->
  In (EvExecute q_validated true)
     (out_events (run (analyze_database (Database s)))) ->
  exists i,
    column_index (tbl_columns t) "status" = Some i
    /\ In (EvPrint (nl ++ "Validated relationships: "
                    ++ py_str (VInt (count_rows
                         (fun r => validated_under (column_collation t "status" i)
                                                   (cell i r))
                         (tbl_rows t)))))
          (out_events (run (analyze_database (Database s))))
    /\ (count_rows (fun r => validated_under (column_collation t "status" i) (cell i r))
                   (tbl_rows t)
        <= Z.of_nat (List.length (tbl_rows t)))%Z.
Proof.
  intros Hf Hq.
  remember (run (analyze_database (Database s))) as o eqn:Ho.
  explore_report Ho.
  all: norm_events_in Ho; subst o; cbn [out_events] in *.
  all: try (exfalso; not_logged Hq).
  all: same_table.
  all: eexists; split; [eassumption|]; split; [|apply count_rows_le].
  all: rewrite count_validated; find_in.
Qed.

Lemma validated_count_witness :
  exists i,
    column_index (tbl_columns demo_relationships) "status" = Some i
    /\ In (EvPrint (nl ++ "Validated relationships: "
                    ++ py_str (VInt (count_rows
                         (fun r => validated_under
                                     (column_collation demo_relationships "status" i)
                                     (cell i r))
                         (tbl_rows demo_relationships)))))
          (out_events (run (analyze_database (Database demo_schema))))
    /\ (count_rows (fun r => validated_under
                               (column_collation demo_relationships "status" i)
                               (cell i r))
                   (tbl_rows demo_relationships)
        <= Z.of_nat (List.length (tbl_rows demo_relationships)))%Z.
Proof.
  apply (validated_count demo_schema demo_relationships).
  - reflexivity.
  - among_events.
Defined.




(* ================================================================== *)
(** * What a completed report needed *)
(* ================================================================== *)

Ltac known_column :=
  match goal with
  | Hcol : column_index ?c ?n = Some _ |- column_index ?c ?n <> None =>
      rewrite Hcol; discriminate
  end.

Ltac table_is_ready :=
  eexists; split; [eassumption|];
  let Hrows := fresh "Hrows" in let c := fresh "c" in let Hc := fresh "Hc" in
  intros Hrows c Hc; split_in Hc;
  first [ known_column | exfalso; empty_table Hrows ].

(** A run of the report that reaches its end was on a database that has
    the five tables and, for each table that has rows, the columns its
    detail statements name.  (A table without rows may lack them: its
    detail statements are never sent.) *)
Theorem report_completes_only_if_ready (s : list object) :
  out_result (run (analyze_database (Database s))) = inr tt -> report_ready s.
Proof.
  intro H.
  remember (run (analyze_database (Database s))) as o eqn:Ho.
  explore_report Ho.
  all: subst o; cbn [out_result] in H.
  all: first [ discriminate H
             | unfold report_ready;
               refine (conj _ (conj _ (conj _ (conj _ _)))); table_is_ready ].
Qed.

Lemma report_completes_only_if_ready_witness : report_ready demo_schema.
Proof. apply (report_completes_only_if_ready demo_schema). vm_compute. reflexivity. Defined.

(** On a database without a files table (such as the empty database
    SQLite creates when the file did not exist) the report prints its
    banner, fails at its first statement with [no such table: files], and
    sends nothing else. *)
Theorem report_without_files_table (s : list object) :
  find_relation s "files" = None ->
  run (analyze_database (Database s)) =
  mk_outcome [ EvConnect; EvPrint ("=== DATABASE ANALYSIS ===" ++ nl);
               EvExecute q_count_files false ]
             fresh_cursor
             (inl (DatabaseError (NoSuchTable "files"))).
Proof.
  intro H.
  remember (run (analyze_database (Database s))) as o eqn:Ho.
  start_report Ho. rewrite H in Ho. py_norm Ho. exact Ho.
Qed.

Lemma report_without_files_table_witness :
  run (analyze_database (Database [])) =
  mk_outcome [ EvConnect; EvPrint ("=== DATABASE ANALYSIS ===" ++ nl);
               EvExecute q_count_files false ]
             fresh_cursor
             (inl (DatabaseError (NoSuchTable "files"))).
Proof. apply (report_without_files_table []). reflexivity. Defined.

(* ================================================================== *)
(** * What the table lister prints first *)
(* ================================================================== *)


(** On a catalog without tables (an empty database, or one that holds
    only other kinds of entries) the lister prints its header, sends no
    further statement, closes the connection and returns. *)
Theorem lister_without_tables (s : list object) :
  table_names s = [] ->
  out_events (run (check_tables (Database s))) =
    [ EvConnect; EvExecute master_query true; EvPrint "Tables in database:"; EvClose ]
  /\ out_result (run (check_tables (Database s))) = inr tt.
Proof.
  intro H. rewrite check_tables_run, H. split; reflexivity.
Qed.

Lemma lister_without_tables_witness :
  out_events (run (check_tables (Database [mk_object "view" "v" "v" 0 VNull demo_files])))
  = [ EvConnect; EvExecute master_query true; EvPrint "Tables in database:"; EvClose ]
  /\ out_result (run (check_tables (Database [mk_object "view" "v" "v" 0 VNull demo_files])))
     = inr tt.
Proof.
  apply (lister_without_tables [mk_object "view" "v" "v" 0 VNull demo_files]).
  reflexivity.
Defined.
